(** * DermaLens authentication API: a shallow embedding of the controllers

    The embedded code is [controllers/authController.js] (signup, signin,
    getProfile, updateProfile, logout) and the authentication middleware
    as listed in the project documentation (the [auth.js] sample).

    JavaScript values are a small inductive type, objects are association
    lists (key order is the insertion order, as in JS).  The handlers are
    [async] functions with side effects on the hosted store and on the
    console; they are written here in a state-and-exception monad over a
    [World] that holds the three tables, the schedule of store failures
    still to come, the trace of external calls, an entropy counter and a
    clock.  The third-party packages (bcrypt, jsonwebtoken, uuid) are the
    fields of the [Libs] class: the general theorems hold for every
    instance, and the concrete runs use the instance [sample_libs]. *)

From Stdlib Require Import String Ascii List ZArith Bool Lia.
Import ListNotations.
Local Open Scope string_scope.
Local Open Scope Z_scope.

(** ** JavaScript values *)

Set Warnings "-register-all".

Inductive Json : Type :=
| JUndef
| JNull
| JBool (b : bool)
| JNum (n : Z)
| JStr (s : string)
| JArr (items : list Json)
| JObj (fields : list (string * Json)).

(** A row of a table and the fields of an object literal. *)
Definition Row := list (string * Json).

(** [!v] is [negb (truthy v)]: undefined, null, false, 0 and the empty
    string are falsy, everything else (objects and arrays too) is truthy. *)
Definition truthy (v : Json) : bool :=
  match v with
  | JUndef | JNull => false
  | JBool b => b
  | JNum n => negb (n =? 0)
  | JStr s => negb (s =? "")%string
  | JArr _ | JObj _ => true
  end.

(** [a || b] on values. *)
Definition js_or (a b : Json) : Json := if truthy a then a else b.

Fixpoint lookup (k : string) (r : Row) : option Json :=
  match r with
  | [] => None
  | (k', v) :: r' => if (k =? k')%string then Some v else lookup k r'
  end.

(** Reading a property of an object literal: [undefined] when absent. *)
Definition field (r : Row) (k : string) : Json :=
  match lookup k r with Some v => v | None => JUndef end.

(** Reading a column of a stored row: SQL null when the column is unset. *)
Definition cell (r : Row) (k : string) : Json :=
  match lookup k r with Some v => v | None => JNull end.

(** [obj.k = v]: overwrite in place, or append as the last key. *)
Fixpoint set_field (k : string) (v : Json) (r : Row) : Row :=
  match r with
  | [] => [(k, v)]
  | (k', v') :: r' =>
      if (k =? k')%string then (k, v) :: r' else (k', v') :: set_field k v r'
  end.

(** Applying a partial record to a row, key by key. *)
Definition merge (upd r : Row) : Row :=
  fold_left (fun acc kv => set_field (fst kv) (snd kv) acc) upd r.

(** The column list of a [select]: [None] is ['*']. *)
Definition pick (cols : option (list string)) (r : Row) : Row :=
  match cols with
  | None => r
  | Some cs => map (fun c => (c, cell r c)) cs
  end.

(** The [eq] filter of the store compares scalars; null matches nothing. *)
Definition cell_eqb (a b : Json) : bool :=
  match a, b with
  | JStr x, JStr y => (x =? y)%string
  | JNum x, JNum y => x =? y
  | JBool x, JBool y => Bool.eqb x y
  | _, _ => false
  end.

Definition matches (col : string) (v : Json) (r : Row) : bool :=
  cell_eqb (cell r col) v.

(** ** Results, responses and the world *)

(** A JS computation returns or throws an error with a [message]. *)
Inductive Result (A : Type) : Type :=
| Ok (a : A)
| Throw (message : string).
Arguments Ok {A} a.
Arguments Throw {A} message.

Record Response : Type := mkResponse {
  status : Z;
  body : Json
}.

Inductive Table : Type := Users | Profiles | Sessions.

(** The external calls a handler makes, in order. *)
Inductive Event : Type :=
| EvSelect (t : Table) (cols : option (list string)) (col : string) (v : Json)
| EvFindById (v : Json)
| EvInsert (t : Table) (row : Row)
| EvUpdate (t : Table) (upd : Row) (col : string) (v : Json)
| EvDelete (t : Table) (col : string) (v : Json)
| EvHash (data : Json)
| EvCompare (data hash : Json)
| EvSign (payload : Json)
| EvVerify (token : Json)
| EvLog (label detail : string).

Record World : Type := mkWorld {
  users : list Row;
  profiles : list Row;
  sessions : list Row;
  faults : list (option string);
  trace : list Event;
  entropy : nat;
  clock : Z
}.

(** [process.env]. *)
Record Env : Type := mkEnv {
  NODE_ENV : option string;
  JWT_SECRET : option string
}.

(** What a store call resolves to: [{ data, error }]; [error] is [None]
    for [null] and [Some m] for an error object whose message is [m]. *)
Record Reply : Type := mkReply {
  data : Json;
  error : option string
}.

Definition table (t : Table) (w : World) : list Row :=
  match t with
  | Users => users w
  | Profiles => profiles w
  | Sessions => sessions w
  end.

Definition set_table (t : Table) (rows : list Row) (w : World) : World :=
  match t with
  | Users => mkWorld rows (profiles w) (sessions w) (faults w) (trace w) (entropy w) (clock w)
  | Profiles => mkWorld (users w) rows (sessions w) (faults w) (trace w) (entropy w) (clock w)
  | Sessions => mkWorld (users w) (profiles w) rows (faults w) (trace w) (entropy w) (clock w)
  end.

Definition set_faults (fs : list (option string)) (w : World) : World :=
  mkWorld (users w) (profiles w) (sessions w) fs (trace w) (entropy w) (clock w).

Definition set_clock (t : Z) (w : World) : World :=
  mkWorld (users w) (profiles w) (sessions w) (faults w) (trace w) (entropy w) t.

Definition add_event (e : Event) (w : World) : World :=
  mkWorld (users w) (profiles w) (sessions w) (faults w) (trace w ++ [e]) (entropy w) (clock w).

Definition bump_entropy (w : World) : World :=
  mkWorld (users w) (profiles w) (sessions w) (faults w) (trace w) (S (entropy w)) (clock w).

(** ** The monad of handlers *)

Definition M (A : Type) : Type := World -> Result A * World.

Definition ret {A} (a : A) : M A := fun w => (Ok a, w).

Definition bind {A B} (m : M A) (k : A -> M B) : M B :=
  fun w =>
    match m w with
    | (Ok a, w') => k a w'
    | (Throw e, w') => (Throw e, w')
    end.

Definition throw {A} (e : string) : M A := fun w => (Throw e, w).

(** [try { m } catch (error) { h error.message }]: the effects of [m] up
    to the throw are kept. *)
Definition try_catch {A} (m : M A) (h : string -> M A) : M A :=
  fun w =>
    match m w with
    | (Ok a, w') => (Ok a, w')
    | (Throw e, w') => h e w'
    end.

Definition lift {A} (r : Result A) : M A := fun w => (r, w).

Definition emit (e : Event) : M unit := fun w => (Ok tt, add_event e w).

Declare Scope js_scope.
Delimit Scope js_scope with js.
Notation "x <- m ;; k" := (bind m (fun x => k))
  (at level 61, m at next level, right associativity) : js_scope.
Notation "m ;;; k" := (bind m (fun _ => k))
  (at level 61, right associativity) : js_scope.
Local Open Scope js_scope.

(** [console.error(label, error)]. *)
Definition console_error (label detail : string) : M unit :=
  emit (EvLog label detail).

(** [new Date()]. *)
Definition new_date : M Json := fun w => (Ok (JNum (clock w)), w).

(** [o.k] where [o] may be null or undefined: a TypeError then. *)
Definition prop (o : Json) (k : string) : M Json :=
  match o with
  | JObj r => ret (field r k)
  | JUndef | JNull => throw ("Cannot read properties of null or undefined")
  | _ => ret JUndef
  end.

(** [o?.k]. *)
Definition opt_prop (o : Json) (k : string) : Json :=
  match o with
  | JObj r => field r k
  | _ => JUndef
  end.

(** ** The store client

    Every call first takes the next entry of the failure schedule: [Some m]
    makes the call resolve to [{ data: null, error: { message: m } }] and
    leaves the tables as they are (a network failure, a rejected
    constraint); an empty schedule means no failure.  The client resolves;
    it does not throw. *)

Definition next_fault : M (option string) :=
  fun w => (Ok (nth 0 (faults w) None), set_faults (tl (faults w)) w).

Definition no_single_row : string :=
  "JSON object requested, multiple (or no) rows returned".

(** [from(t).select(cols).eq(col, v).single()]. *)
Definition select_single (t : Table) (cols : option (list string))
    (col : string) (v : Json) : M Reply :=
  emit (EvSelect t cols col v) ;;;
  f <- next_fault ;;
  match f with
  | Some m => ret (mkReply JNull (Some m))
  | None =>
      fun w =>
        match filter (matches col v) (table t w) with
        | [r] => (Ok (mkReply (JObj (pick cols r)) None), w)
        | _ => (Ok (mkReply JNull (Some no_single_row)), w)
        end
  end.

(** [from(t).insert([row]).select().single()]. *)
Definition insert_returning (t : Table) (row : Row) : M Reply :=
  emit (EvInsert t row) ;;;
  f <- next_fault ;;
  match f with
  | Some m => ret (mkReply JNull (Some m))
  | None =>
      fun w => (Ok (mkReply (JObj row) None), set_table t (table t w ++ [row]) w)
  end.

(** [from(t).insert([row])]. *)
Definition insert (t : Table) (row : Row) : M Reply :=
  emit (EvInsert t row) ;;;
  f <- next_fault ;;
  match f with
  | Some m => ret (mkReply JNull (Some m))
  | None =>
      fun w => (Ok (mkReply JNull None), set_table t (table t w ++ [row]) w)
  end.

(** [from(t).update(upd).eq(col, v)]. *)
Definition update (t : Table) (upd : Row) (col : string) (v : Json) : M Reply :=
  emit (EvUpdate t upd col v) ;;;
  f <- next_fault ;;
  match f with
  | Some m => ret (mkReply JNull (Some m))
  | None =>
      fun w =>
        (Ok (mkReply JNull None),
         set_table t
           (map (fun r => if matches col v r then merge upd r else r) (table t w)) w)
  end.

(** [from(t).delete().eq(col, v)]. *)
Definition delete (t : Table) (col : string) (v : Json) : M Reply :=
  emit (EvDelete t col v) ;;;
  f <- next_fault ;;
  match f with
  | Some m => ret (mkReply JNull (Some m))
  | None =>
      fun w =>
        (Ok (mkReply JNull None),
         set_table t (filter (fun r => negb (matches col v r)) (table t w)) w)
  end.

(** Modelled from the spec: the [User] model that the listed middleware
    calls as [User.findById(decoded.id)] is not among the sources.  The
    spec has the gate "look up the identity named in the claims via the
    Credential Store Client", absence being "not found": the lookup goes
    to the user table by [id] and resolves to the row, or to null when no
    row has the id; a failing lookup rejects (throws), as a model
    query does. *)
Definition find_by_id (v : Json) : M Json :=
  emit (EvFindById v) ;;;
  f <- next_fault ;;
  match f with
  | Some m => throw m
  | None =>
      fun w =>
        match filter (matches "id" v) (users w) with
        | r :: _ => (Ok (JObj r), w)
        | [] => (Ok JNull, w)
        end
  end.

(** ** The third-party packages

    [uuid_of n] is the identifier [uuidv4()] draws at entropy [n];
    [bcrypt_hash n data rounds] is [bcrypt.hash(data, rounds)] with the
    salt drawn at entropy [n]; [jwt_sign payload secret expiresIn now] and
    [jwt_verify token secret now] are [jwt.sign] and [jwt.verify] at the
    clock value [now].  All but [uuid_of] may throw. *)

Class Libs : Type := {
  uuid_of : nat -> string;
  bcrypt_hash : nat -> Json -> Z -> Result string;
  bcrypt_compare : Json -> Json -> Result bool;
  jwt_sign : Json -> option string -> string -> Z -> Result string;
  jwt_verify : Json -> option string -> Z -> Result Json
}.

Record Request : Type := mkRequest {
  req_body : Row;
  authorization : option string;
  user_agent : Json;
  req_ip : Json;
  remote_address : Json;
  req_user : Json
}.

Definition with_user (u : Json) (req : Request) : Request :=
  mkRequest (req_body req) (authorization req) (user_agent req) (req_ip req)
    (remote_address req) u.

(** [res.status(code).json({ message })] and
    [res.status(code).json({ message, error })]. *)
Definition say (code : Z) (message : string) : Response :=
  mkResponse code (JObj [("message", JStr message)]).

Definition say_error (code : Z) (message detail : string) : Response :=
  mkResponse code (JObj [("message", JStr message); ("error", JStr detail)]).

(** [s.split(sep)] for a one-character separator. *)
Fixpoint split_on (sep : ascii) (s : string) : list string :=
  match s with
  | EmptyString => [EmptyString]
  | String c s' =>
      if Ascii.eqb c sep then EmptyString :: split_on sep s'
      else
        match split_on sep s' with
        | [] => [String c EmptyString]
        | x :: xs => String c x :: xs
        end
  end.

(** The string has no space in it. *)
Fixpoint no_space (s : string) : bool :=
  match s with
  | EmptyString => true
  | String c s' => negb (Ascii.eqb c " "%char) && no_space s'
  end.

(** [a[i]]. *)
Definition index (a : list string) (i : nat) : Json :=
  match nth_error a i with
  | Some s => JStr s
  | None => JUndef
  end.

(** [{ ...o }]. *)
Definition spread (o : Json) : Row :=
  match o with
  | JObj r => r
  | _ => []
  end.

Section Handlers.

Context {L : Libs}.

Definition uuidv4 : M Json :=
  fun w => (Ok (JStr (uuid_of (entropy w))), bump_entropy w).

Definition hash (data : Json) (rounds : Z) : M string :=
  emit (EvHash data) ;;;
  fun w => (bcrypt_hash (entropy w) data rounds, bump_entropy w).

Definition compare (data h : Json) : M bool :=
  emit (EvCompare data h) ;;;
  lift (bcrypt_compare data h).

Definition sign (payload : Json) (secret : option string) (expiresIn : string)
  : M string :=
  emit (EvSign payload) ;;;
  fun w => (jwt_sign payload secret expiresIn (clock w), w).

Definition verify (token : Json) (secret : option string) : M Json :=
  emit (EvVerify token) ;;;
  fun w => (jwt_verify token secret (clock w), w).

(** The [catch] block shared by the five handlers. *)
Definition server_error (e : string) : M Response :=
  console_error "Server error:" e ;;;
  ret (say_error 500 "Terjadi kesalahan pada server" e).

(** *** signup *)

(** The part of [signup] after the existence check has let it through:
    hash, insert the user, insert the profile, sign, answer 201. *)
Definition signup_register (env : Env) (email password name phone : Json)
  : M Response :=
  hashedPassword <- hash password 10 ;;
  userId <- uuidv4 ;;
  created <- new_date ;;
  r <- insert_returning Users
         [("id", userId); ("email", email); ("password", JStr hashedPassword);
          ("name", name); ("phone", js_or phone JNull); ("created_at", created)] ;;
  match error r with
  | Some m =>
      console_error "Signup error:" m ;;;
      ret (say_error 500 "Gagal mendaftarkan pengguna" m)
  | None =>
      let newUser := data r in
      profileId <- uuidv4 ;;
      created' <- new_date ;;
      rp <- insert Profiles
              [("id", profileId); ("user_id", userId); ("avatar", JNull);
               ("created_at", created')] ;;
      match error rp with
      | Some m => console_error "Profile creation error:" m
      | None => ret tt
      end ;;;
      tokenEmail <- prop newUser "email" ;;
      token <- sign (JObj [("id", userId); ("email", tokenEmail)])
                 (JWT_SECRET env) "7d" ;;
      newId <- prop newUser "id" ;;
      newEmail <- prop newUser "email" ;;
      newName <- prop newUser "name" ;;
      ret (mkResponse 201
             (JObj [("message", JStr "Pendaftaran berhasil");
                    ("user", JObj [("id", newId); ("email", newEmail);
                                   ("name", newName)]);
                    ("token", JStr token)]))
  end.

Definition signup (env : Env) (req : Request) : M Response :=
  let email := field (req_body req) "email" in
  let password := field (req_body req) "password" in
  let name := field (req_body req) "name" in
  let phone := field (req_body req) "phone" in
  if negb (truthy email) || negb (truthy password) || negb (truthy name) then
    ret (say 400 "Email, password, dan nama wajib diisi")
  else
    try_catch
      (r <- select_single Users None "email" email ;;
       let existingUser := data r in
       if truthy existingUser then ret (say 400 "Email sudah terdaftar")
       else signup_register env email password name phone)
      server_error.

(** *** signin *)

Definition invalid_credentials : Response := say 401 "Email atau password salah".

Definition signin (env : Env) (req : Request) : M Response :=
  let email := field (req_body req) "email" in
  let password := field (req_body req) "password" in
  let userAgent := user_agent req in
  let ip := js_or (req_ip req) (remote_address req) in
  if negb (truthy email) || negb (truthy password) then
    ret (say 400 "Email dan password wajib diisi")
  else
    try_catch
      (r <- select_single Users None "email" email ;;
       let user := data r in
       match error r with
       | Some _ => ret invalid_credentials
       | None =>
           if negb (truthy user) then ret invalid_credentials
           else
             stored <- prop user "password" ;;
             isPasswordValid <- compare password stored ;;
             if negb isPasswordValid then ret invalid_credentials
             else
               userId <- prop user "id" ;;
               userEmail <- prop user "email" ;;
               token <- sign (JObj [("id", userId); ("email", userEmail)])
                          (JWT_SECRET env) "7d" ;;
               sessionId <- uuidv4 ;;
               owner <- prop user "id" ;;
               seen <- new_date ;;
               rs <- insert Sessions
                       [("id", sessionId); ("user_id", owner); ("ip_address", ip);
                        ("user_agent", userAgent); ("last_activity", seen)] ;;
               match error rs with
               | Some m => console_error "Session creation error:" m
               | None => ret tt
               end ;;;
               outId <- prop user "id" ;;
               outEmail <- prop user "email" ;;
               outName <- prop user "name" ;;
               ret (mkResponse 200
                      (JObj [("message", JStr "Login berhasil");
                             ("user", JObj [("id", outId); ("email", outEmail);
                                            ("name", outName)]);
                             ("token", JStr token)]))
       end)
      server_error.

(** *** getProfile *)

Definition profile_columns : list string :=
  ["id"; "email"; "name"; "phone"; "created_at"].

Definition getProfile (req : Request) : M Response :=
  try_catch
    (userId <- prop (req_user req) "id" ;;
     ru <- select_single Users (Some profile_columns) "id" userId ;;
     let user := data ru in
     match error ru with
     | Some _ => ret (say 404 "Pengguna tidak ditemukan")
     | None =>
         rp <- select_single Profiles (Some ["avatar"]) "user_id" userId ;;
         let profile := data rp in
         ret (mkResponse 200
                (JObj [("user",
                        JObj (set_field "avatar"
                                (js_or (opt_prop profile "avatar") JNull)
                                (spread user)))]))
     end)
    server_error.

(** *** updateProfile *)

(** [userUpdates]: the truthy ones of [name] and [phone]. *)
Definition user_updates (name phone : Json) : Row :=
  let u0 : Row := [] in
  let u1 := if truthy name then set_field "name" name u0 else u0 in
  if truthy phone then set_field "phone" phone u1 else u1.

Definition updateProfile (req : Request) : M Response :=
  let name := field (req_body req) "name" in
  let phone := field (req_body req) "phone" in
  let avatar := field (req_body req) "avatar" in
  userId <- prop (req_user req) "id" ;;
  try_catch
    (let userUpdates := user_updates name phone in
     early <-
       (if (0 <? Z.of_nat (length userUpdates)) then
          r <- update Users userUpdates "id" userId ;;
          match error r with
          | Some m => ret (Some (say_error 500 "Gagal memperbarui profil" m))
          | None => ret None
          end
        else ret None) ;;
     match early with
     | Some resp => ret resp
     | None =>
         early' <-
           (if truthy avatar then
              r <- update Profiles [("avatar", avatar)] "user_id" userId ;;
              match error r with
              | Some m => ret (Some (say_error 500 "Gagal memperbarui avatar" m))
              | None => ret None
              end
            else ret None) ;;
         match early' with
         | Some resp => ret resp
         | None => ret (say 200 "Profil berhasil diperbarui")
         end
     end)
    server_error.

(** *** logout *)

Definition logout (req : Request) : M Response :=
  userId <- prop (req_user req) "id" ;;
  try_catch
    (r <- delete Sessions "user_id" userId ;;
     match error r with
     | Some m => console_error "Session deletion error:" m
     | None => ret tt
     end ;;;
     ret (say 200 "Logout berhasil"))
    server_error.

(** *** The authentication middleware *)

Inductive Gate : Type :=
| Rejected (r : Response)
| Passed (user : Json).

Definition auth (env : Env) (req : Request) : M Gate :=
  try_catch
    (match authorization req with
     | None => ret (Rejected (say 401 "Authentication required"))
     | Some authHeader =>
         if (authHeader =? "")%string || negb (prefix "Bearer " authHeader) then
           ret (Rejected (say 401 "Authentication required"))
         else
           let token := index (split_on " "%char authHeader) 1 in
           decoded <- verify token (JWT_SECRET env) ;;
           id <- prop decoded "id" ;;
           user <- find_by_id id ;;
           if negb (truthy user) then ret (Rejected (say 401 "User not found"))
           else ret (Passed user)
     end)
    (fun _ => ret (Rejected (say 401 "Invalid token"))).

(** A protected route: [router.verb(path, authMiddleware, handler)]. *)
Definition protected (handler : Request -> M Response) (env : Env)
    (req : Request) : M Response :=
  g <- auth env req ;;
  match g with
  | Rejected r => ret r
  | Passed u => handler (with_user u req)
  end.

(** ** Situations and observations the properties speak of *)

(** The entry of the failure schedule that the [n]-th store call of a
    handler will meet. *)
Definition fault_at (n : nat) (w : World) : option string :=
  nth n (faults w) None.

(** The world after the existence check of [signup]. *)
Definition after_check (email : Json) (w : World) : World :=
  set_faults (tl (faults w)) (add_event (EvSelect Users None "email" email) w).

(** The request carries a usable email and password. *)
Definition credentials_present (req : Request) : Prop :=
  truthy (field (req_body req) "email") = true /\
  truthy (field (req_body req) "password") = true.

(** No row of the user table has the email of the request. *)
Definition no_such_user (req : Request) (w : World) : Prop :=
  filter (matches "email" (field (req_body req) "email")) (users w) = [].


(** A [single()] lookup that does not come back with a row: the call
    fails, or the filter selects no row, or more than one. *)
Definition lookup_fails (f : option string) (col : string) (v : Json)
    (rows : list Row) : Prop :=
  f <> None \/ forall r, filter (matches col v) rows <> [r].

Definition table_eqb (a b : Table) : bool :=
  match a, b with
  | Users, Users | Profiles, Profiles | Sessions, Sessions => true
  | _, _ => false
  end.

(** The event is a write (insert, update or delete) issued to table [t]. *)
Definition writes_to (t : Table) (e : Event) : bool :=
  match e with
  | EvInsert t' _ | EvUpdate t' _ _ _ | EvDelete t' _ _ => table_eqb t t'
  | _ => false
  end.

Definition is_write (e : Event) : bool :=
  writes_to Users e || writes_to Profiles e || writes_to Sessions e.

(** The decision of the middleware, cause by cause: what the header, the
    verifier, the failure schedule and the user table make of a request. *)
Definition gate_decision (env : Env) (req : Request) (w : World) : Gate :=
  match authorization req with
  | None => Rejected (say 401 "Authentication required")
  | Some authHeader =>
      if negb (prefix "Bearer " authHeader) then
        Rejected (say 401 "Authentication required")
      else
        match jwt_verify (index (split_on " "%char authHeader) 1)
                (JWT_SECRET env) (clock w) with
        | Throw _ => Rejected (say 401 "Invalid token")
        | Ok JUndef | Ok JNull => Rejected (say 401 "Invalid token")
        | Ok decoded =>
            match fault_at 0 w with
            | Some _ => Rejected (say 401 "Invalid token")
            | None =>
                match filter (matches "id" (opt_prop decoded "id")) (users w) with
                | [] => Rejected (say 401 "User not found")
                | u :: _ => Passed (JObj u)
                end
            end
        end
  end.

(** Every rejection has one message for all its causes. *)
Definition uniform_rejection : Prop :=
  forall env req1 w1 req2 w2 r1 r2,
    fst (auth env req1 w1) = Ok (Rejected r1) ->
    fst (auth env req2 w2) = Ok (Rejected r2) ->
    r1 = r2.

End Handlers.

(** ** A concrete instance of the packages, for running the handlers

    Stand-ins that compute: the hash is the password behind a fixed
    prefix, a token is the subject identifier behind ["tok."], whatever
    the clock says. *)

Definition sample_hash (data : Json) : Result string :=
  match data with
  | JStr s => Ok ("$2b$10$" ++ s)
  | _ => Throw "data must be a string or Buffer"
  end.

Definition sample_compare (data h : Json) : Result bool :=
  match data, h with
  | JStr s, JStr h' => Ok (h' =? "$2b$10$" ++ s)%string
  | _, _ => Throw "data and hash arguments required"
  end.

Definition sample_sign (payload : Json) (secret : option string) : Result string :=
  match secret, opt_prop payload "id" with
  | None, _ => Throw "secretOrPrivateKey must have a value"
  | Some _, JStr id => Ok ("tok." ++ id)
  | Some _, _ => Ok "tok."
  end.

Definition sample_verify (token : Json) (secret : option string) : Result Json :=
  match secret, token with
  | None, _ => Throw "secret or public key must be provided"
  | Some _, JStr t =>
      if prefix "tok." t then Ok (JObj [("id", JStr (substring 4 (String.length t - 4)%nat t))])
      else Throw "jwt malformed"
  | Some _, _ => Throw "jwt must be provided"
  end.

Definition sample_libs : Libs := {|
  uuid_of n := "id-" ++ string_of_list_ascii (repeat "x"%char n);
  bcrypt_hash _ data _ := sample_hash data;
  bcrypt_compare := sample_compare;
  jwt_sign payload secret _ _ := sample_sign payload secret;
  jwt_verify token secret _ := sample_verify token secret
|}.

Definition production : Env := mkEnv (Some "production") (Some "s3cret").

Definition empty_world : World := mkWorld [] [] [] [] [] 0%nat 0.

Definition json_request (fields : Row) : Request :=
  mkRequest fields None JUndef (JStr "127.0.0.1") JUndef JUndef.

Definition alice : Row :=
  [("id", JStr "id-a"); ("email", JStr "a@x.com");
   ("password", JStr "$2b$10$pw123456"); ("name", JStr "A");
   ("phone", JNull); ("created_at", JNum 0)].

Definition alice_world : World := mkWorld [alice] [] [] [] [] 0%nat 0.

Definition signup_request : Request :=
  json_request [("email", JStr "a@x.com"); ("password", JStr "pw123456");
                ("name", JStr "A")].

Definition signup_request' : Request :=
  json_request [("email", JStr "a@x.com"); ("password", JStr "another-one");
                ("name", JStr "A")].

Definition signup_request_bad_password : Request :=
  json_request [("email", JStr "a@x.com"); ("password", JNum 12345678);
                ("name", JStr "A")].



Definition good_request : Request :=
  json_request [("email", JStr "a@x.com"); ("password", JStr "pw123456")].

(** A request with [Authorization: Bearer t]. *)
Definition bearer (t : string) : Request :=
  mkRequest [] (Some ("Bearer " ++ t)) JUndef (JStr "127.0.0.1") JUndef JUndef.

(** A request the middleware has resolved to alice. *)
Definition as_alice (fields : Row) : Request :=
  mkRequest fields (Some "Bearer tok.id-a") JUndef (JStr "127.0.0.1") JUndef
    (JObj alice).

Definition alice_session : Row :=
  [("id", JStr "s1"); ("user_id", JStr "id-a"); ("ip_address", JStr "10.0.0.1");
   ("user_agent", JStr "curl"); ("last_activity", JNum 0)].

Definition alice_session' : Row :=
  [("id", JStr "s2"); ("user_id", JStr "id-a"); ("ip_address", JStr "10.0.0.2");
   ("user_agent", JStr "firefox"); ("last_activity", JNum 5)].

Definition bob_session : Row :=
  [("id", JStr "s3"); ("user_id", JStr "id-b"); ("ip_address", JStr "10.0.0.3");
   ("user_agent", JStr "curl"); ("last_activity", JNum 7)].

Definition busy_world : World :=
  mkWorld [alice] [] [alice_session; bob_session; alice_session'] [] [] 0%nat 0.

(** The status code of the response a handler has sent, if it sent one. *)
Definition status_of (r : Result Response) : option Z :=
  match r with
  | Ok resp => Some (status resp)
  | Throw _ => None
  end.

Definition store_error : string :=
  "duplicate key value violates unique constraint users_email_key".

(** ** Observations for the remaining paths *)

(** The handler has sent a response, and its status is one of [codes]. *)
Definition status_among (codes : list Z) (r : Result Response) : Prop :=
  exists resp, r = Ok resp /\ In (status resp) codes.

(** The keys of an object, in order. *)
Definition keys (r : Row) : list string := map fst r.

(** The user row that signup inserts, from the hash [h] made at entropy
    [n] and the clock value [now]. *)
Definition new_user_row {L : Libs} (n : nat) (now : Z)
    (email name phone : Json) (h : string) : Row :=
  [("id", JStr (uuid_of (S n))); ("email", email); ("password", JStr h);
   ("name", name); ("phone", js_or phone JNull); ("created_at", JNum now)].

(** The profile row that signup inserts after it. *)
Definition new_profile_row {L : Libs} (n : nat) (now : Z) : Row :=
  [("id", JStr (uuid_of (S (S n)))); ("user_id", JStr (uuid_of (S n)));
   ("avatar", JNull); ("created_at", JNum now)].

(** A deployment whose signing secret is not set. *)
Definition no_secret : Env := mkEnv (Some "production") None.

Definition bob : Row :=
  [("id", JStr "id-b"); ("email", JStr "b@x.com");
   ("password", JStr "$2b$10$hunter22"); ("name", JStr "B");
   ("phone", JStr "111"); ("created_at", JNum 1)].

Definition alice_profile : Row :=
  [("id", JStr "p1"); ("user_id", JStr "id-a"); ("avatar", JStr "a.png");
   ("created_at", JNum 0)].

Definition two_users_world : World :=
  mkWorld [alice; bob] [alice_profile] [] [] [] 0%nat 0.

(** A signup with an empty email. *)
Definition signup_request_no_email : Request :=
  json_request [("email", JStr ""); ("password", JStr "pw123456");
                ("name", JStr "A")].

(** A profile update that also tries to set the email, the password and
    the id. *)
Definition greedy_update : Request :=
  as_alice [("name", JStr "Alice"); ("email", JStr "evil@x.com");
            ("password", JStr "plain"); ("id", JStr "id-b")].

(** A request with the Authorization header [h]. *)
Definition with_header (h : string) : Request :=
  mkRequest [] (Some h) JUndef (JStr "127.0.0.1") JUndef JUndef.

(** * Properties *)

Section Properties.

Context {L : Libs}.

Lemma nth_tl {A} (n : nat) (l : list A) (d : A) :
  nth n (tl l) d = nth (S n) l d.
Proof. destruct l; simpl; [destruct n|]; reflexivity. Qed.

(** Bring the failure schedule to the [fault_at] form. *)
Ltac schedule :=
  repeat rewrite nth_tl;
  repeat match goal with
         | |- context [nth ?n (faults ?w) None] =>
             change (nth n (faults w) None) with (fault_at n w)
         end.

(** Run a handler symbolically. *)
Ltac run :=
  cbv [try_catch bind ret throw lift emit console_error new_date next_fault
       select_single insert_returning insert update delete find_by_id
       uuidv4 hash compare sign verify server_error];
  cbn [faults users profiles sessions trace entropy clock table set_table
       set_faults add_event bump_entropy data error fst snd];
  schedule.

(** Read the final world off a finished run. *)
Ltac settle :=
  cbn [fst snd users profiles sessions trace faults entropy clock table
       set_table set_faults add_event bump_entropy];
  repeat rewrite <- app_assoc; repeat split; reflexivity.




(** ** signup *)

Lemma try_catch_ok {A} (m : M A) (h : string -> M A) w a w' :
  m w = (Ok a, w') -> try_catch m h w = (Ok a, w').
Proof. intros H. unfold try_catch. rewrite H. reflexivity. Qed.

Lemma signup_check_skipped env req w :
  let email := field (req_body req) "email" in
  let password := field (req_body req) "password" in
  let name := field (req_body req) "name" in
  let phone := field (req_body req) "phone" in
  truthy email = true -> truthy password = true -> truthy name = true ->
  lookup_fails (fault_at 0 w) "email" email (users w) ->
  signup env req w =
    try_catch (signup_register env email password name phone) server_error
      (after_check email w).
Proof.
  intros email password name phone He Hp Hn Hl. unfold signup, after_check.
  fold email password name phone. rewrite He, Hp, Hn. cbn [negb orb]. run.
  destruct Hl as [Hf | Hr]; destruct (fault_at 0 w) as [m'|]; run;
    try reflexivity; try contradiction.
  destruct (filter (matches "email" email) (users w)) as [|r [|r' l]];
    try reflexivity.
  exfalso. apply (Hr r). reflexivity.
Qed.

Lemma signup_register_created env email password name phone w h tok :
  let userId := JStr (uuid_of (S (entropy w))) in
  let row : Row :=
    [("id", userId); ("email", email); ("password", JStr h); ("name", name);
     ("phone", js_or phone JNull); ("created_at", JNum (clock w))] in
  let prow : Row :=
    [("id", JStr (uuid_of (S (S (entropy w))))); ("user_id", userId);
     ("avatar", JNull); ("created_at", JNum (clock w))] in
  let payload := JObj [("id", userId); ("email", email)] in
  bcrypt_hash (entropy w) password 10 = Ok h ->
  fault_at 0 w = None ->
  jwt_sign payload (JWT_SECRET env) "7d" (clock w) = Ok tok ->
  let out := signup_register env email password name phone w in
  fst out =
    Ok (mkResponse 201
          (JObj [("message", JStr "Pendaftaran berhasil");
                 ("user", JObj [("id", userId); ("email", email); ("name", name)]);
                 ("token", JStr tok)])) /\
  users (snd out) = (users w ++ [row])%list /\
  profiles (snd out) =
    match fault_at 1 w with
    | None => (profiles w ++ [prow])%list
    | Some _ => profiles w
    end /\
  sessions (snd out) = sessions w /\
  trace (snd out) =
    (trace w ++ [EvHash password; EvInsert Users row; EvInsert Profiles prow] ++
     match fault_at 1 w with
     | Some m => [EvLog "Profile creation error:" m]
     | None => []
     end ++ [EvSign payload])%list.
Proof.
  intros userId row prow payload Hh Hf Hs out. subst out.
  unfold signup_register. run. rewrite Hh. run. rewrite Hf. run.
  destruct (fault_at 1 w) as [m|]; run; unfold prop; run;
    cbn [field lookup String.eqb Ascii.eqb Bool.eqb];
    unfold payload, userId in Hs; rewrite Hs; settle.
Qed.

Lemma fault_at_after_check n email w :
  fault_at n (after_check email w) = fault_at (S n) w.
Proof. unfold fault_at, after_check. cbn [faults set_faults]. apply nth_tl. Qed.

Lemma signup_created env req w h tok :
  let email := field (req_body req) "email" in
  let password := field (req_body req) "password" in
  let name := field (req_body req) "name" in
  let phone := field (req_body req) "phone" in
  let userId := JStr (uuid_of (S (entropy w))) in
  let row : Row :=
    [("id", userId); ("email", email); ("password", JStr h); ("name", name);
     ("phone", js_or phone JNull); ("created_at", JNum (clock w))] in
  let prow : Row :=
    [("id", JStr (uuid_of (S (S (entropy w))))); ("user_id", userId);
     ("avatar", JNull); ("created_at", JNum (clock w))] in
  let payload := JObj [("id", userId); ("email", email)] in
  truthy email = true -> truthy password = true -> truthy name = true ->
  lookup_fails (fault_at 0 w) "email" email (users w) ->
  bcrypt_hash (entropy w) password 10 = Ok h ->
  fault_at 1 w = None ->
  jwt_sign payload (JWT_SECRET env) "7d" (clock w) = Ok tok ->
  let out := signup env req w in
  fst out =
    Ok (mkResponse 201
          (JObj [("message", JStr "Pendaftaran berhasil");
                 ("user", JObj [("id", userId); ("email", email); ("name", name)]);
                 ("token", JStr tok)])) /\
  users (snd out) = (users w ++ [row])%list /\
  profiles (snd out) =
    match fault_at 2 w with
    | None => (profiles w ++ [prow])%list
    | Some _ => profiles w
    end /\
  sessions (snd out) = sessions w /\
  trace (snd out) =
    (trace w ++
     [EvSelect Users None "email" email; EvHash password; EvInsert Users row;
      EvInsert Profiles prow] ++
     match fault_at 2 w with
     | Some m => [EvLog "Profile creation error:" m]
     | None => []
     end ++ [EvSign payload])%list.
Proof.
  intros email password name phone userId row prow payload He Hp Hn Hl Hh Hf Hs
    out.
  subst out. rewrite (signup_check_skipped env req w He Hp Hn Hl).
  fold email password name phone.
  destruct (signup_register_created env email password name phone
              (after_check email w) h tok) as (R & U & P & S' & T).
  - exact Hh.
  - rewrite fault_at_after_check. exact Hf.
  - exact Hs.
  - destruct (signup_register env email password name phone
                (after_check email w)) as [r w'] eqn:E.
    cbn [fst snd] in R, U, P, S', T. subst r.
    rewrite (try_catch_ok _ server_error _ _ _ E). cbn [fst snd].
    rewrite U, P, S', T. rewrite fault_at_after_check.
    unfold after_check.
    cbn [users profiles sessions trace entropy clock set_faults add_event].
    rewrite <- app_assoc. repeat split; reflexivity.
Qed.

(** ** signin *)

Lemma signin_granted env req w u tok :
  let email := field (req_body req) "email" in
  let password := field (req_body req) "password" in
  let payload := JObj [("id", field u "id"); ("email", field u "email")] in
  let srow : Row :=
    [("id", JStr (uuid_of (entropy w))); ("user_id", field u "id");
     ("ip_address", js_or (req_ip req) (remote_address req));
     ("user_agent", user_agent req); ("last_activity", JNum (clock w))] in
  credentials_present req ->
  filter (matches "email" email) (users w) = [u] ->
  fault_at 0 w = None ->
  bcrypt_compare password (field u "password") = Ok true ->
  jwt_sign payload (JWT_SECRET env) "7d" (clock w) = Ok tok ->
  let out := signin env req w in
  fst out =
    Ok (mkResponse 200
          (JObj [("message", JStr "Login berhasil");
                 ("user", JObj [("id", field u "id"); ("email", field u "email");
                                ("name", field u "name")]);
                 ("token", JStr tok)])) /\
  users (snd out) = users w /\
  profiles (snd out) = profiles w /\
  sessions (snd out) =
    match fault_at 1 w with
    | None => (sessions w ++ [srow])%list
    | Some _ => sessions w
    end /\
  trace (snd out) =
    (trace w ++
     [EvSelect Users None "email" email; EvCompare password (field u "password");
      EvSign payload; EvInsert Sessions srow] ++
     match fault_at 1 w with
     | Some m => [EvLog "Session creation error:" m]
     | None => []
     end)%list.
Proof.
  intros email password payload srow [He Hp] Hu Hf Hc Hs out. subst out.
  unfold signin. fold email password. fold email in He. fold password in Hp.
  rewrite He, Hp. cbn [negb orb]. run. rewrite Hf. run. rewrite Hu.
  cbn [pick data error truthy negb]. unfold prop. run. rewrite Hc.
  cbn [negb]. run. unfold payload in Hs. rewrite Hs. run.
  destruct (fault_at 1 w) as [m|]; run; settle.
Qed.

(** ** logout *)

Lemma logout_run req w ur :
  req_user req = JObj ur ->
  let userId := field ur "id" in
  let out := logout req w in
  fst out = Ok (say 200 "Logout berhasil") /\
  users (snd out) = users w /\
  profiles (snd out) = profiles w /\
  sessions (snd out) =
    match fault_at 0 w with
    | None => filter (fun r => negb (matches "user_id" userId r)) (sessions w)
    | Some _ => sessions w
    end /\
  trace (snd out) =
    (trace w ++
     EvDelete Sessions "user_id" userId ::
     match fault_at 0 w with
     | Some m => [EvLog "Session deletion error:" m]
     | None => []
     end)%list /\
  faults (snd out) = tl (faults w) /\
  clock (snd out) = clock w.
Proof.
  intros Hu userId out. subst out. unfold logout. rewrite Hu. unfold prop.
  run. fold userId. destruct (fault_at 0 w) as [m|]; run; settle.
Qed.

(** Case analysis over everything a run branches on. *)
Ltac crunch :=
  repeat (cbv [try_catch bind ret throw lift emit console_error new_date
               next_fault select_single insert_returning insert update delete
               find_by_id uuidv4 hash compare sign verify server_error prop
               faults users profiles sessions trace entropy clock table
               set_table set_faults add_event bump_entropy data error fst snd
               nth tl negb orb andb pick];
          try reflexivity;
          match goal with
          | |- context [match ?f with Some _ => _ | None => _ end] =>
              is_var f; destruct f
          | |- context [if ?b then _ else _] => is_var b; destruct b
          | |- context [match ?v with JUndef => _ | _ => _ end] =>
              is_var v; destruct v
          | |- context [bcrypt_hash ?a ?b ?c] => destruct (bcrypt_hash a b c)
          | |- context [bcrypt_compare ?a ?b] => destruct (bcrypt_compare a b)
          | |- context [jwt_sign ?a ?b ?c ?d] => destruct (jwt_sign a b c d)
          | |- context [filter ?f ?l] => destruct (filter f l) as [|? [|? ?]]
          | |- context [truthy ?x] => destruct (truthy x)
          end).

(** The outcome of the best-effort write never reaches the response:
    with the schedule changed at that one call from failure to success,
    each handler answers the same, whatever else happens in the run. *)
Lemma signup_profile_fault_swallowed env req w f0 f1 m rest :
  fst (signup env req (set_faults (f0 :: f1 :: Some m :: rest) w)) =
  fst (signup env req (set_faults (f0 :: f1 :: None :: rest) w)).
Proof.
  destruct w. unfold signup, signup_register. crunch.
Qed.

Lemma signin_session_fault_swallowed env req w f0 m rest :
  fst (signin env req (set_faults (f0 :: Some m :: rest) w)) =
  fst (signin env req (set_faults (f0 :: None :: rest) w)).
Proof.
  destruct w. unfold signin. crunch.
Qed.

Lemma logout_fault_swallowed req w m rest :
  fst (logout req (set_faults (Some m :: rest) w)) =
  fst (logout req (set_faults (None :: rest) w)).
Proof.
  destruct w. unfold logout. destruct (req_user req); crunch.
Qed.

(** C4. When the best-effort write of signup (the profile insert), of
    signin (the session insert) or of logout (the session delete) fails
    with message [m], the failure is written to the console log, nothing
    is thrown, and the handler answers as on success: 201 with user and
    token, 200 with user and token, 200 with the logout message.  In
    every run, the response is the one the handler gives when that write
    succeeds. *)
Theorem secondary_write_failure_swallowed :
  (forall env req w m h tok,
      let email := field (req_body req) "email" in
      let password := field (req_body req) "password" in
      let name := field (req_body req) "name" in
      let phone := field (req_body req) "phone" in
      let userId := JStr (uuid_of (S (entropy w))) in
      let row : Row :=
        [("id", userId); ("email", email); ("password", JStr h);
         ("name", name); ("phone", js_or phone JNull);
         ("created_at", JNum (clock w))] in
      let prow : Row :=
        [("id", JStr (uuid_of (S (S (entropy w))))); ("user_id", userId);
         ("avatar", JNull); ("created_at", JNum (clock w))] in
      let payload := JObj [("id", userId); ("email", email)] in
      truthy email = true -> truthy password = true -> truthy name = true ->
      lookup_fails (fault_at 0 w) "email" email (users w) ->
      bcrypt_hash (entropy w) password 10 = Ok h ->
      fault_at 1 w = None ->
      fault_at 2 w = Some m ->
      jwt_sign payload (JWT_SECRET env) "7d" (clock w) = Ok tok ->
      fst (signup env req w) =
        Ok (mkResponse 201
              (JObj [("message", JStr "Pendaftaran berhasil");
                     ("user", JObj [("id", userId); ("email", email);
                                    ("name", name)]);
                     ("token", JStr tok)])) /\
      users (snd (signup env req w)) = (users w ++ [row])%list /\
      profiles (snd (signup env req w)) = profiles w /\
      trace (snd (signup env req w)) =
        (trace w ++
         [EvSelect Users None "email" email; EvHash password;
          EvInsert Users row; EvInsert Profiles prow;
          EvLog "Profile creation error:" m; EvSign payload])%list) /\
  (forall env req w u m tok,
      let email := field (req_body req) "email" in
      let password := field (req_body req) "password" in
      let payload := JObj [("id", field u "id"); ("email", field u "email")] in
      let srow : Row :=
        [("id", JStr (uuid_of (entropy w))); ("user_id", field u "id");
         ("ip_address", js_or (req_ip req) (remote_address req));
         ("user_agent", user_agent req); ("last_activity", JNum (clock w))] in
      credentials_present req ->
      filter (matches "email" email) (users w) = [u] ->
      fault_at 0 w = None ->
      fault_at 1 w = Some m ->
      bcrypt_compare password (field u "password") = Ok true ->
      jwt_sign payload (JWT_SECRET env) "7d" (clock w) = Ok tok ->
      fst (signin env req w) =
        Ok (mkResponse 200
              (JObj [("message", JStr "Login berhasil");
                     ("user", JObj [("id", field u "id");
                                    ("email", field u "email");
                                    ("name", field u "name")]);
                     ("token", JStr tok)])) /\
      sessions (snd (signin env req w)) = sessions w /\
      trace (snd (signin env req w)) =
        (trace w ++
         [EvSelect Users None "email" email;
          EvCompare password (field u "password"); EvSign payload;
          EvInsert Sessions srow; EvLog "Session creation error:" m])%list) /\
  (forall req w ur m,
      req_user req = JObj ur ->
      fault_at 0 w = Some m ->
      fst (logout req w) =
        Ok (mkResponse 200 (JObj [("message", JStr "Logout berhasil")])) /\
      sessions (snd (logout req w)) = sessions w /\
      trace (snd (logout req w)) =
        (trace w ++
         [EvDelete Sessions "user_id" (field ur "id");
          EvLog "Session deletion error:" m])%list) /\
  (forall env req w f0 f1 m rest,
      fst (signup env req (set_faults (f0 :: f1 :: Some m :: rest) w)) =
      fst (signup env req (set_faults (f0 :: f1 :: None :: rest) w))) /\
  (forall env req w f0 m rest,
      fst (signin env req (set_faults (f0 :: Some m :: rest) w)) =
      fst (signin env req (set_faults (f0 :: None :: rest) w))) /\
  (forall req w m rest,
      fst (logout req (set_faults (Some m :: rest) w)) =
      fst (logout req (set_faults (None :: rest) w))).
Proof.
  split; [| split; [| split; [| split; [| split]]]];
    [ | | | exact signup_profile_fault_swallowed
      | exact signin_session_fault_swallowed
      | exact logout_fault_swallowed ].
  - intros env req w m h tok email password name phone userId row prow payload
      He Hp Hn Hl Hh H1 H2 Hs.
    destruct (signup_created env req w h tok He Hp Hn Hl Hh H1 Hs)
      as (R & U & P & _ & T).
    rewrite H2 in P, T. repeat split; assumption.
  - intros env req w u m tok email password payload srow Hc Hu H0 H1 Hv Hs.
    destruct (signin_granted env req w u tok Hc Hu H0 Hv Hs)
      as (R & _ & _ & S' & T).
    rewrite H1 in S', T. repeat split; assumption.
  - intros req w ur m Hu H0.
    destruct (logout_run req w ur Hu) as (R & _ & _ & S' & T & _).
    rewrite H0 in S', T. repeat split; assumption.
Qed.

(** C5. A signup with email, password and name present, for an email no
    row has yet, whose insert goes through, answers 201; the [user] object
    has the keys [id], [email], [name] and no other; the token is signed
    over a payload whose [id] is the returned user id; and the response
    is built from the id, the email, the name and the token alone: a
    request that differs in the password (and so in the hash) gets the
    same response. *)
Theorem signup_success_response env req req' w h h' tok :
  let email := field (req_body req) "email" in
  let password := field (req_body req) "password" in
  let name := field (req_body req) "name" in
  let userId := JStr (uuid_of (S (entropy w))) in
  let payload := JObj [("id", userId); ("email", email)] in
  truthy email = true -> truthy password = true -> truthy name = true ->
  no_such_user req w ->
  bcrypt_hash (entropy w) password 10 = Ok h ->
  fault_at 1 w = None ->
  jwt_sign payload (JWT_SECRET env) "7d" (clock w) = Ok tok ->
  field (req_body req') "email" = email ->
  field (req_body req') "name" = name ->
  truthy (field (req_body req') "password") = true ->
  bcrypt_hash (entropy w) (field (req_body req') "password") 10 = Ok h' ->
  fst (signup env req w) =
    Ok (mkResponse 201
          (JObj [("message", JStr "Pendaftaran berhasil");
                 ("user", JObj [("id", userId); ("email", email); ("name", name)]);
                 ("token", JStr tok)])) /\
  fst (signup env req' w) = fst (signup env req w).
Proof.
  intros email password name userId payload He Hp Hn Hno Hh H1 Hs He' Hn' Hp' Hh'.
  assert (Hl : lookup_fails (fault_at 0 w) "email" email (users w)).
  { right. intros r Hr. unfold no_such_user in Hno. fold email in Hno.
    rewrite Hno in Hr. discriminate. }
  destruct (signup_created env req w h tok He Hp Hn Hl Hh H1 Hs) as (R & _).
  split; [exact R |]. rewrite R.
  fold email in He'. fold name in Hn'.
  assert (He2 : truthy (field (req_body req') "email") = true)
    by (rewrite He'; exact He).
  assert (Hn2 : truthy (field (req_body req') "name") = true)
    by (rewrite Hn'; exact Hn).
  assert (Hl2 : lookup_fails (fault_at 0 w) "email"
                  (field (req_body req') "email") (users w))
    by (rewrite He'; exact Hl).
  assert (Hs2 : jwt_sign
                  (JObj [("id", JStr (uuid_of (S (entropy w))));
                         ("email", field (req_body req') "email")])
                  (JWT_SECRET env) "7d" (clock w) = Ok tok)
    by (rewrite He'; exact Hs).
  destruct (signup_created env req' w h' tok He2 Hp' Hn2 Hl2 Hh' H1 Hs2)
    as (R' & _).
  rewrite R', He', Hn'. reflexivity.
Qed.

(** ** The existence check of signup *)

(** What [signup_register] answers and calls does not depend on the rows
    the tables hold. *)
Lemma signup_register_frame env email password name phone w1 w2 :
  faults w1 = faults w2 -> trace w1 = trace w2 ->
  entropy w1 = entropy w2 -> clock w1 = clock w2 ->
  let out1 := try_catch (signup_register env email password name phone)
                server_error w1 in
  let out2 := try_catch (signup_register env email password name phone)
                server_error w2 in
  fst out1 = fst out2 /\ trace (snd out1) = trace (snd out2).
Proof.
  intros Hf Ht He Hc out1 out2. subst out1 out2.
  destruct w1 as [u1 p1 s1 f1 t1 e1 c1], w2 as [u2 p2 s2 f2 t2 e2 c2].
  cbn [faults trace entropy clock] in Hf, Ht, He, Hc. subst f2 t2 e2 c2.
  unfold signup_register. run.
  destruct (bcrypt_hash e1 password 10); run; [| settle].
  unfold fault_at; cbn [faults].
  destruct (nth 0 f1 None); run; [settle |].
  unfold fault_at; cbn [faults].
  destruct (nth 1 f1 None); run; unfold prop; run;
    cbn [field lookup String.eqb Ascii.eqb Bool.eqb];
    destruct (jwt_sign _ _ _ _); run; settle.
Qed.

(** [signup_register] always answers, with 201 or 500, and its first call
    is the hash of the password; once the hash is made, the next call is
    the insert of the user row. *)
Lemma signup_register_calls env email password name phone w :
  let out := try_catch (signup_register env email password name phone)
               server_error w in
  (exists resp, fst out = Ok resp /\ (status resp = 201 \/ status resp = 500)) /\
  (exists evs, trace (snd out) = (trace w ++ EvHash password :: evs)%list) /\
  (forall h, bcrypt_hash (entropy w) password 10 = Ok h ->
     exists evs,
       trace (snd out) =
         (trace w ++
          EvHash password ::
          EvInsert Users
            [("id", JStr (uuid_of (S (entropy w)))); ("email", email);
             ("password", JStr h); ("name", name);
             ("phone", js_or phone JNull); ("created_at", JNum (clock w))] ::
          evs)%list).
Proof.
  intros out. subst out. unfold signup_register. run.
  destruct (bcrypt_hash (entropy w) password 10) as [h0|e0]; run.
  2:{ repeat split.
      - eexists; split; [reflexivity | right; reflexivity].
      - eexists. cbn [trace add_event]. rewrite <- app_assoc. reflexivity.
      - intros h Hh. discriminate. }
  destruct (fault_at 0 w) as [m0|]; run.
  { repeat split.
    - eexists; split; [reflexivity | right; reflexivity].
    - eexists. cbn [trace add_event]. repeat rewrite <- app_assoc. reflexivity.
    - intros h Hh. injection Hh as <-. eexists. cbn [trace add_event].
      repeat rewrite <- app_assoc. reflexivity. }
  destruct (fault_at 1 w) as [m1|]; run; unfold prop; run;
    cbn [field lookup String.eqb Ascii.eqb Bool.eqb];
    destruct (jwt_sign _ _ _ _) as [tok|e1]; run;
    (repeat split;
     [ eexists; split; [reflexivity | (left; reflexivity) || (right; reflexivity)]
     | eexists; cbn [snd trace add_event set_faults bump_entropy];
       repeat rewrite <- app_assoc; reflexivity
     | intros h Hh; injection Hh as <-; eexists;
       cbn [snd trace add_event set_faults bump_entropy];
       repeat rewrite <- app_assoc; reflexivity ]).
Qed.

(** C10. When the existence lookup of signup fails, whatever the reason
    and whether or not the email is registered, the conflict branch is
    skipped: signup goes on to hash the password and to insert the user,
    and answers and calls exactly as it does for an email no row has. *)
Theorem signup_lookup_error_ignored env req w m :
  let email := field (req_body req) "email" in
  let password := field (req_body req) "password" in
  let name := field (req_body req) "name" in
  let phone := field (req_body req) "phone" in
  truthy email = true -> truthy password = true -> truthy name = true ->
  fault_at 0 w = Some m ->
  signup env req w =
    try_catch (signup_register env email password name phone) server_error
      (after_check email w) /\
  (exists resp,
     fst (signup env req w) = Ok resp /\
     (status resp = 201 \/ status resp = 500)) /\
  (exists evs,
     trace (snd (signup env req w)) =
       (trace w ++
        EvSelect Users None "email" email :: EvHash password :: evs)%list) /\
  (forall h, bcrypt_hash (entropy w) password 10 = Ok h ->
     exists evs,
       trace (snd (signup env req w)) =
         (trace w ++
          EvSelect Users None "email" email ::
          EvHash password ::
          EvInsert Users
            [("id", JStr (uuid_of (S (entropy w)))); ("email", email);
             ("password", JStr h); ("name", name);
             ("phone", js_or phone JNull); ("created_at", JNum (clock w))] ::
          evs)%list) /\
  (forall w0,
     no_such_user req w0 ->
     tl (faults w0) = tl (faults w) -> trace w0 = trace w ->
     entropy w0 = entropy w -> clock w0 = clock w ->
     fst (signup env req w0) = fst (signup env req w) /\
     trace (snd (signup env req w0)) = trace (snd (signup env req w))).
Proof.
  intros email password name phone He Hp Hn Hf.
  assert (Hl : lookup_fails (fault_at 0 w) "email" email (users w))
    by (left; rewrite Hf; discriminate).
  pose proof (signup_check_skipped env req w He Hp Hn Hl) as Hrun.
  fold email password name phone in Hrun.
  destruct (signup_register_calls env email password name phone
              (after_check email w)) as (Hresp & Hhash & Hins).
  split; [exact Hrun |]. rewrite Hrun.
  split; [exact Hresp |].
  split.
  { destruct Hhash as [evs Hevs]. exists evs. rewrite Hevs.
    unfold after_check. cbn [trace set_faults add_event].
    rewrite <- app_assoc. reflexivity. }
  split.
  { intros h Hh. destruct (Hins h Hh) as [evs Hevs]. exists evs.
    rewrite Hevs. unfold after_check.
    cbn [trace entropy clock set_faults add_event].
    rewrite <- app_assoc. reflexivity. }
  intros w0 Hno Hfs Ht Hen Hc.
  assert (Hl0 : lookup_fails (fault_at 0 w0) "email" email (users w0)).
  { right. intros r Hr. unfold no_such_user in Hno. fold email in Hno.
    rewrite Hno in Hr. discriminate. }
  rewrite (signup_check_skipped env req w0 He Hp Hn Hl0).
  fold email password name phone.
  apply signup_register_frame; unfold after_check;
    cbn [faults trace entropy clock set_faults add_event]; congruence.
Qed.

(** ** getProfile *)

(** C8. When the user lookup of getProfile comes back with the row and
    the profile lookup fails (the call fails, or no profile row, or several,
    belong to the user), the response is 200 with the five core columns of
    the user and [avatar: null]; nothing is written. *)
Theorem getProfile_without_profile req w ur u :
  let userId := field ur "id" in
  req_user req = JObj ur ->
  fault_at 0 w = None ->
  filter (matches "id" userId) (users w) = [u] ->
  lookup_fails (fault_at 1 w) "user_id" userId (profiles w) ->
  fst (getProfile req w) =
    Ok (mkResponse 200
          (JObj [("user",
                  JObj [("id", cell u "id"); ("email", cell u "email");
                        ("name", cell u "name"); ("phone", cell u "phone");
                        ("created_at", cell u "created_at");
                        ("avatar", JNull)])])) /\
  users (snd (getProfile req w)) = users w /\
  profiles (snd (getProfile req w)) = profiles w /\
  sessions (snd (getProfile req w)) = sessions w.
Proof.
  intros userId Hu H0 Hrow Hl. unfold getProfile. rewrite Hu. unfold prop.
  run. fold userId. rewrite H0. run. rewrite Hrow. run.
  destruct Hl as [Hf | Hr]; destruct (fault_at 1 w) as [m|]; run;
    try contradiction; try (repeat split; reflexivity).
  destruct (filter (matches "user_id" userId) (profiles w)) as [|r [|r' l]];
    try (repeat split; reflexivity).
  exfalso. apply (Hr r). reflexivity.
Qed.

(** ** updateProfile *)

Lemma lookup_set_field_other k k' v r :
  k' <> k -> lookup k' (set_field k v r) = lookup k' r.
Proof.
  intros Hk. induction r as [|[k0 v0] r IH]; simpl.
  - destruct (String.eqb_spec k' k); [contradiction | reflexivity].
  - destruct (String.eqb_spec k k0) as [->|Hk0]; simpl.
    + destruct (String.eqb_spec k' k0); [contradiction | reflexivity].
    + destruct (String.eqb_spec k' k0); [reflexivity | exact IH].
Qed.

Lemma lookup_set_field_same k v r : lookup k (set_field k v r) = Some v.
Proof.
  induction r as [|[k0 v0] r IH]; simpl.
  - rewrite String.eqb_refl. reflexivity.
  - destruct (String.eqb_spec k k0) as [->|Hk0]; simpl.
    + rewrite String.eqb_refl. reflexivity.
    + destruct (String.eqb_spec k k0); [contradiction | exact IH].
Qed.

Lemma cell_set_field_other k k' v r :
  k' <> k -> cell (set_field k v r) k' = cell r k'.
Proof. intros Hk. unfold cell. rewrite lookup_set_field_other by exact Hk. reflexivity. Qed.

Lemma cell_set_field_same k v r : cell (set_field k v r) k = v.
Proof. unfold cell. rewrite lookup_set_field_same. reflexivity. Qed.

(** An update of one column leaves every other column of every row as
    it was. *)
Lemma column_kept k k' v (sel : Row -> bool) rows :
  k' <> k ->
  map (fun r => cell r k')
    (map (fun r => if sel r then set_field k v r else r) rows) =
  map (fun r => cell r k') rows.
Proof.
  intros Hk. rewrite map_map. apply map_ext. intros r.
  destruct (sel r); [apply cell_set_field_other; exact Hk | reflexivity].
Qed.

(** Decide [Object.keys(userUpdates).length > 0] on a literal object. *)
Ltac decide_length :=
  match goal with
  | |- context [?a <? ?b] =>
      let v := eval vm_compute in (a <? b) in change (a <? b) with v
  end.

Lemma updateProfile_nothing req w ur :
  req_user req = JObj ur ->
  truthy (field (req_body req) "name") = false ->
  truthy (field (req_body req) "phone") = false ->
  truthy (field (req_body req) "avatar") = false ->
  updateProfile req w = (Ok (say 200 "Profil berhasil diperbarui"), w).
Proof.
  intros Hu Hn Hp Ha. unfold updateProfile, user_updates.
  rewrite Hu, Hn, Hp, Ha. unfold prop. run. reflexivity.
Qed.

Lemma updateProfile_no_user_fields req w ur :
  req_user req = JObj ur ->
  truthy (field (req_body req) "name") = false ->
  truthy (field (req_body req) "phone") = false ->
  users (snd (updateProfile req w)) = users w /\
  exists evs,
    trace (snd (updateProfile req w)) = (trace w ++ evs)%list /\
    forallb (fun e => negb (writes_to Users e)) evs = true.
Proof.
  intros Hu Hn Hp. unfold updateProfile, user_updates.
  rewrite Hu, Hn, Hp. unfold prop. decide_length. run.
  destruct (truthy (field (req_body req) "avatar")); run.
  - destruct (fault_at 0 w); run; (split; [reflexivity |]);
      eexists; (split; [cbn [snd trace add_event]; reflexivity | reflexivity]).
  - split; [reflexivity |]. exists []. rewrite app_nil_r. split; reflexivity.
Qed.

Lemma updateProfile_no_avatar req w ur :
  req_user req = JObj ur ->
  truthy (field (req_body req) "avatar") = false ->
  profiles (snd (updateProfile req w)) = profiles w /\
  exists evs,
    trace (snd (updateProfile req w)) = (trace w ++ evs)%list /\
    forallb (fun e => negb (writes_to Profiles e)) evs = true.
Proof.
  intros Hu Ha. unfold updateProfile. rewrite Hu, Ha. unfold prop. run.
  destruct (0 <? Z.of_nat (length (user_updates _ _))); run.
  - destruct (fault_at 0 w); run; (split; [reflexivity |]);
      eexists; (split; [cbn [snd trace add_event]; reflexivity | reflexivity]).
  - split; [reflexivity |]. exists []. rewrite app_nil_r. split; reflexivity.
Qed.

Lemma updateProfile_phone_only req w ur :
  let phone := field (req_body req) "phone" in
  let userId := field ur "id" in
  req_user req = JObj ur ->
  truthy (field (req_body req) "name") = false ->
  truthy phone = true ->
  truthy (field (req_body req) "avatar") = false ->
  let out := updateProfile req w in
  trace (snd out) = (trace w ++ [EvUpdate Users [("phone", phone)] "id" userId])%list /\
  fst out =
    match fault_at 0 w with
    | None => Ok (say 200 "Profil berhasil diperbarui")
    | Some m => Ok (say_error 500 "Gagal memperbarui profil" m)
    end /\
  users (snd out) =
    match fault_at 0 w with
    | None =>
        map (fun r => if matches "id" userId r then set_field "phone" phone r
                      else r) (users w)
    | Some _ => users w
    end /\
  (forall k, k <> "phone" ->
     map (fun r => cell r k) (users (snd out)) = map (fun r => cell r k) (users w)) /\
  profiles (snd out) = profiles w /\
  sessions (snd out) = sessions w.
Proof.
  intros phone userId Hu Hn Hp Ha out. subst out.
  unfold updateProfile, user_updates. fold phone. rewrite Hu, Hn, Hp, Ha.
  unfold prop. decide_length. run. fold userId.
  destruct (fault_at 0 w) as [m|]; run.
  - repeat split; try reflexivity.
  - cbn [fst snd users profiles sessions trace]. repeat split; try reflexivity.
    intros k Hk. unfold merge. cbn [fold_left fst snd].
    apply column_kept. exact Hk.
Qed.

Lemma user_updates_fields name phone :
  user_updates name phone =
    ((if truthy name then [("name", name)] else []) ++
     (if truthy phone then [("phone", phone)] else []))%list.
Proof.
  unfold user_updates. destruct (truthy name), (truthy phone); reflexivity.
Qed.

(** The store calls of updateProfile, in all cases. *)
Lemma updateProfile_calls req w ur :
  let name := field (req_body req) "name" in
  let phone := field (req_body req) "phone" in
  let avatar := field (req_body req) "avatar" in
  let userId := field ur "id" in
  let some_user_field := truthy name || truthy phone in
  req_user req = JObj ur ->
  trace (snd (updateProfile req w)) =
    (trace w ++
     (if some_user_field
      then [EvUpdate Users (user_updates name phone) "id" userId] else []) ++
     (if truthy avatar &&
         (negb some_user_field ||
          match fault_at 0 w with None => true | Some _ => false end)
      then [EvUpdate Profiles [("avatar", avatar)] "user_id" userId] else []))%list.
Proof.
  intros name phone avatar userId some_user_field Hu.
  subst some_user_field. unfold updateProfile.
  fold name phone avatar. rewrite Hu. unfold prop. run. fold userId.
  rewrite user_updates_fields.
  destruct (truthy name), (truthy phone); cbn [app orb negb andb];
    decide_length; run.
  4:{ destruct (truthy avatar); run.
      - destruct (fault_at 0 w); run; cbn [snd trace]; reflexivity.
      - cbn [snd andb app]. rewrite app_nil_r. reflexivity. }
  all: destruct (fault_at 0 w); run;
    [ cbn [snd trace andb app]; rewrite ?andb_false_r; reflexivity |];
    destruct (truthy avatar); run;
    [ destruct (fault_at 1 w); run; cbn [snd trace andb app];
      rewrite <- app_assoc; reflexivity
    | cbn [snd trace andb app]; reflexivity ].
Qed.

(** C7. updateProfile writes the provided non-empty fields and nothing
    else: the user update carries exactly the truthy ones of name and
    phone and is not issued when there is none; the profile update carries
    the avatar and is not issued when there is none; a request with only a
    phone updates the phone of the user's row and leaves the other
    columns and the profile table as they were; a request with no field
    makes no call at all and answers 200. *)
Theorem updateProfile_partial_writes req w ur :
  let name := field (req_body req) "name" in
  let phone := field (req_body req) "phone" in
  let avatar := field (req_body req) "avatar" in
  let userId := field ur "id" in
  let out := updateProfile req w in
  req_user req = JObj ur ->
  (exists evs,
     trace (snd out) = (trace w ++ evs)%list /\
     forall e, In e evs ->
       (e = EvUpdate Users (user_updates name phone) "id" userId /\
        (truthy name || truthy phone) = true) \/
       (e = EvUpdate Profiles [("avatar", avatar)] "user_id" userId /\
        truthy avatar = true)) /\
  user_updates name phone =
    ((if truthy name then [("name", name)] else []) ++
     (if truthy phone then [("phone", phone)] else []))%list /\
  (truthy name = false -> truthy phone = false ->
   users (snd out) = users w /\
   exists evs,
     trace (snd out) = (trace w ++ evs)%list /\
     forallb (fun e => negb (writes_to Users e)) evs = true) /\
  (truthy avatar = false ->
   profiles (snd out) = profiles w /\
   exists evs,
     trace (snd out) = (trace w ++ evs)%list /\
     forallb (fun e => negb (writes_to Profiles e)) evs = true) /\
  (truthy name = false -> truthy phone = true -> truthy avatar = false ->
   trace (snd out) =
     (trace w ++ [EvUpdate Users [("phone", phone)] "id" userId])%list /\
   (fault_at 0 w = None ->
    fst out = Ok (say 200 "Profil berhasil diperbarui") /\
    users (snd out) =
      map (fun r => if matches "id" userId r then set_field "phone" phone r
                    else r) (users w)) /\
   (forall k, k <> "phone" ->
      map (fun r => cell r k) (users (snd out)) =
      map (fun r => cell r k) (users w)) /\
   profiles (snd out) = profiles w) /\
  (truthy name = false -> truthy phone = false -> truthy avatar = false ->
   out = (Ok (mkResponse 200 (JObj [("message", JStr "Profil berhasil diperbarui")])),
          w)).
Proof.
  intros name phone avatar userId out Hu. subst out.
  split.
  { eexists. split; [apply (updateProfile_calls req w ur Hu) |].
    fold name phone avatar userId. intros e He.
    apply in_app_or in He. destruct He as [He | He].
    - destruct (truthy name || truthy phone) eqn:E; [| contradiction].
      destruct He as [<- | []]. left. split; reflexivity.
    - destruct (truthy avatar) eqn:E; cbn [andb] in He; [| contradiction].
      destruct (_ || _) in He; [| contradiction].
      destruct He as [<- | []]. right. split; reflexivity. }
  split; [apply user_updates_fields |].
  split; [intros Hn Hp; exact (updateProfile_no_user_fields req w ur Hu Hn Hp) |].
  split; [intros Ha; exact (updateProfile_no_avatar req w ur Hu Ha) |].
  split.
  - intros Hn Hp Ha.
    destruct (updateProfile_phone_only req w ur Hu Hn Hp Ha)
      as (T & R & U & K & P & _).
    fold phone userId in T, R, U, K.
    repeat split; try assumption.
    + rewrite R. match goal with H : fault_at 0 w = None |- _ => rewrite H end.
      reflexivity.
    + rewrite U. match goal with H : fault_at 0 w = None |- _ => rewrite H end.
      reflexivity.
  - intros Hn Hp Ha. exact (updateProfile_nothing req w ur Hu Hn Hp Ha).
Qed.

(** ** The authentication middleware *)

Lemma auth_run env req w : fst (auth env req w) = Ok (gate_decision env req w).
Proof.
  unfold auth, gate_decision. destruct (authorization req) as [h|]; run;
    [| reflexivity].
  destruct (String.eqb_spec h "") as [-> | Hne]; [reflexivity |].
  cbn [orb]. destruct (prefix "Bearer " h); cbn [negb]; run; [| reflexivity].
  destruct (jwt_verify _ _ _) as [decoded | e]; run; [| reflexivity].
  destruct decoded; unfold prop; run; try reflexivity;
    destruct (fault_at 0 w); run; try reflexivity;
    cbn [opt_prop];
    match goal with
    | |- context [filter ?f ?l] => destruct (filter f l)
    end; reflexivity.
Qed.

Lemma auth_reads_only env req w :
  users (snd (auth env req w)) = users w /\
  profiles (snd (auth env req w)) = profiles w /\
  sessions (snd (auth env req w)) = sessions w.
Proof.
  unfold auth. destruct (authorization req) as [h|]; run;
    [| repeat split; reflexivity].
  destruct ((h =? "")%string || negb (prefix "Bearer " h)); run;
    [repeat split; reflexivity |].
  destruct (jwt_verify _ _ _) as [decoded | e]; run;
    [| repeat split; reflexivity].
  destruct decoded; unfold prop; run; try (repeat split; reflexivity);
    destruct (fault_at 0 w); run; try (repeat split; reflexivity);
    match goal with
    | |- context [filter ?f ?l] => destruct (filter f l)
    end; repeat split; reflexivity.
Qed.

(** The decision reads the user table, the next entry of the failure
    schedule and the clock, and nothing else of the world. *)
Lemma gate_decision_frame env req w1 w2 :
  users w1 = users w2 -> fault_at 0 w1 = fault_at 0 w2 -> clock w1 = clock w2 ->
  gate_decision env req w1 = gate_decision env req w2.
Proof.
  intros Hu Hf Hc. unfold gate_decision. rewrite Hu, Hf, Hc. reflexivity.
Qed.

Lemma protected_run handler env req w :
  protected handler env req w =
    match gate_decision env req w with
    | Rejected r => (Ok r, snd (auth env req w))
    | Passed u => handler (with_user u req) (snd (auth env req w))
    end.
Proof.
  unfold protected, bind. pose proof (auth_run env req w) as H.
  destruct (auth env req w) as [g w']. cbn [fst snd] in *. subst g.
  destruct (gate_decision env req w); reflexivity.
Qed.

(** C6 (as amended). Every rejection of the middleware has status 401,
    and its message names the cause: ['Authentication required'] when
    the Authorization header is absent or does not start with ['Bearer '],
    ['Invalid token'] when the verification of the token (or the lookup, or
    the reading of the claims) throws, ['User not found'] when no user row
    has the id of the claims.  Only otherwise does the request pass, with
    a row of the user table whose id is that of the claims attached, and
    only then is the handler run. *)
Theorem auth_rejects_by_cause env req w :
  fst (auth env req w) = Ok (gate_decision env req w) /\
  (forall r, gate_decision env req w = Rejected r ->
     status r = 401 /\
     (body r = JObj [("message", JStr "Authentication required")] \/
      body r = JObj [("message", JStr "Invalid token")] \/
      body r = JObj [("message", JStr "User not found")])) /\
  (authorization req = None ->
   gate_decision env req w = Rejected (say 401 "Authentication required")) /\
  (forall h, authorization req = Some h -> prefix "Bearer " h = false ->
   gate_decision env req w = Rejected (say 401 "Authentication required")) /\
  (forall h e, authorization req = Some h -> prefix "Bearer " h = true ->
   jwt_verify (index (split_on " "%char h) 1) (JWT_SECRET env) (clock w) = Throw e ->
   gate_decision env req w = Rejected (say 401 "Invalid token")) /\
  (forall h claims, authorization req = Some h -> prefix "Bearer " h = true ->
   jwt_verify (index (split_on " "%char h) 1) (JWT_SECRET env) (clock w) =
     Ok (JObj claims) ->
   fault_at 0 w = None ->
   filter (matches "id" (field claims "id")) (users w) = [] ->
   gate_decision env req w = Rejected (say 401 "User not found")) /\
  (forall u, gate_decision env req w = Passed u ->
     exists h decoded row,
       authorization req = Some h /\ prefix "Bearer " h = true /\
       jwt_verify (index (split_on " "%char h) 1) (JWT_SECRET env) (clock w) =
         Ok decoded /\
       u = JObj row /\ In row (users w) /\
       matches "id" (opt_prop decoded "id") row = true) /\
  (forall handler,
     protected handler env req w =
       match gate_decision env req w with
       | Rejected r => (Ok r, snd (auth env req w))
       | Passed u => handler (with_user u req) (snd (auth env req w))
       end).
Proof.
  split; [apply auth_run |].
  split.
  { intros r. unfold gate_decision.
    destruct (authorization req) as [h|].
    2:{ intros [= <-]. split; [reflexivity | left; reflexivity]. }
    destruct (prefix "Bearer " h); cbn [negb].
    2:{ intros [= <-]. split; [reflexivity | left; reflexivity]. }
    destruct (jwt_verify _ _ _) as [decoded | e].
    2:{ intros [= <-]. split; [reflexivity | right; left; reflexivity]. }
    destruct decoded;
      try (intros [= <-]; split; [reflexivity | right; left; reflexivity]);
      (destruct (fault_at 0 w);
       [ intros [= <-]; split; [reflexivity | right; left; reflexivity] |];
       destruct (filter _ _);
       [ intros [= <-]; split; [reflexivity | right; right; reflexivity]
       | discriminate ]). }
  split.
  { intros H. unfold gate_decision. rewrite H. reflexivity. }
  split.
  { intros h H P. unfold gate_decision. rewrite H, P. reflexivity. }
  split.
  { intros h e H P V. unfold gate_decision. rewrite H, P, V. reflexivity. }
  split.
  { intros h claims H P V F N. unfold gate_decision.
    rewrite H, P, V, F. cbn [negb opt_prop]. rewrite N. reflexivity. }
  split.
  { intros u. unfold gate_decision.
    destruct (authorization req) as [h|]; [| discriminate].
    destruct (prefix "Bearer " h) eqn:P; cbn [negb]; [| discriminate].
    destruct (jwt_verify _ _ _) as [decoded | e] eqn:V; [| discriminate].
    assert (G : forall rows,
               match fault_at 0 w with
               | Some _ => Rejected (say 401 "Invalid token")
               | None =>
                   match filter (matches "id" (opt_prop decoded "id")) rows with
                   | [] => Rejected (say 401 "User not found")
                   | u0 :: _ => Passed (JObj u0)
                   end
               end = Passed u ->
               exists row, u = JObj row /\ In row rows /\
                           matches "id" (opt_prop decoded "id") row = true).
    { intros rows. destruct (fault_at 0 w); [discriminate |].
      destruct (filter _ rows) as [|u0 l] eqn:E; [discriminate |].
      intros [= <-]. exists u0. split; [reflexivity |].
      assert (Hin : In u0 (filter (matches "id" (opt_prop decoded "id")) rows))
        by (rewrite E; left; reflexivity).
      apply filter_In in Hin. exact Hin. }
    destruct decoded; try discriminate; intros Hd;
      destruct (G (users w) Hd) as (row & -> & Hin & Hm);
      exists h; eexists; exists row; repeat split; try eassumption;
      reflexivity. }
  intros handler. apply protected_run.
Qed.

(** ** logout *)

(** C9. logout issues one store call, the delete of the session rows
    whose [user_id] is the id of the resolved identity; when the call goes
    through, no session of that user is left and the sessions of the
    others stay; the answer is 200 in every case; the user and profile
    tables are untouched, and the middleware decides on every token, at
    every later time, exactly as it would have without the logout. *)
Theorem logout_clears_sessions_keeps_tokens env req w ur :
  let userId := field ur "id" in
  let out := logout req w in
  req_user req = JObj ur ->
  fst out = Ok (mkResponse 200 (JObj [("message", JStr "Logout berhasil")])) /\
  (exists logs,
     trace (snd out) =
       (trace w ++ EvDelete Sessions "user_id" userId :: logs)%list /\
     forallb (fun e => negb (is_write e)) logs = true) /\
  (fault_at 0 w = None ->
   sessions (snd out) =
     filter (fun r => negb (matches "user_id" userId r)) (sessions w) /\
   (forall r, In r (sessions (snd out)) -> matches "user_id" userId r = false) /\
   (forall r, In r (sessions w) -> matches "user_id" userId r = false ->
              In r (sessions (snd out)))) /\
  users (snd out) = users w /\
  profiles (snd out) = profiles w /\
  (forall req' fs t,
     fst (auth env req' (set_clock t (set_faults fs (snd out)))) =
     fst (auth env req' (set_clock t (set_faults fs w)))).
Proof.
  intros userId out Hu. subst out.
  destruct (logout_run req w ur Hu) as (R & U & P & S' & T & _).
  fold userId in S', T.
  split; [exact R |].
  split.
  { eexists. split; [exact T |]. destruct (fault_at 0 w); reflexivity. }
  split.
  { intros H0. rewrite H0 in S'. rewrite S'. split; [reflexivity |]. split.
    - intros r Hr. apply filter_In in Hr. destruct Hr as [_ Hr].
      apply negb_true_iff. exact Hr.
    - intros r Hr Hm. apply filter_In. split; [exact Hr |].
      rewrite Hm. reflexivity. }
  split; [exact U |]. split; [exact P |].
  intros req' fs t. rewrite !auth_run. f_equal.
  apply gate_decision_frame; [exact U | reflexivity | reflexivity].
Qed.

End Properties.

(** ** The token of a Bearer header *)

Lemma split_on_no_space t : no_space t = true -> split_on " "%char t = [t].
Proof.
  induction t as [|c t IH]; simpl; [reflexivity |].
  intros H. apply andb_true_iff in H. destruct H as [Hc Ht].
  apply negb_true_iff in Hc. rewrite Hc, (IH Ht). reflexivity.
Qed.

Lemma bearer_token t :
  no_space t = true -> index (split_on " "%char ("Bearer " ++ t)) 1 = JStr t.
Proof.
  intros H. change ("Bearer " ++ t)%string with
    (String "B" (String "e" (String "a" (String "r" (String "e" (String "r"
       (String " " t))))))).
  cbn [split_on Ascii.eqb Bool.eqb]. rewrite (split_on_no_space t H).
  reflexivity.
Qed.

(** ** Error detail and the deployment mode *)

(** C3. With [NODE_ENV=production], a signup whose user insert is refused
    by the store answers 500 with the raw text of the store error in
    [error], and a signup whose hashing throws answers 500 with the raw
    text of the exception in [error]; no handler reads the mode. *)
Theorem production_response_carries_error_detail :
  NODE_ENV production = Some "production" /\
  fst (@signup sample_libs production signup_request
         (set_faults [None; Some store_error] empty_world)) =
    Ok (mkResponse 500
          (JObj [("message", JStr "Gagal mendaftarkan pengguna");
                 ("error", JStr store_error)])) /\
  fst (@signup sample_libs production signup_request_bad_password empty_world) =
    Ok (mkResponse 500
          (JObj [("message", JStr "Terjadi kesalahan pada server");
                 ("error", JStr "data must be a string or Buffer")])) /\
  (forall (L : Libs) mode mode' secret req,
      signup (mkEnv mode secret) req = signup (mkEnv mode' secret) req /\
      signin (mkEnv mode secret) req = signin (mkEnv mode' secret) req).
Proof.
  split; [reflexivity |]. split; [reflexivity |]. split; [reflexivity |].
  intros L mode mode' secret req. split; reflexivity.
Qed.

(** ** The messages of the middleware *)

(** C6 (as stated) fails: a request without a header and a request with a
    token that does not verify are both rejected, with different messages. *)
Lemma gate_rejections_not_uniform : ~ @uniform_rejection sample_libs.
Proof.
  intros H.
  specialize (H production (json_request []) empty_world
                (bearer "bad") empty_world
                (say 401 "Authentication required") (say 401 "Invalid token")
                eq_refl eq_refl).
  discriminate H.
Qed.

(** ** The theorems at concrete inputs *)


Lemma secondary_write_failure_swallowed_witness :
  status_of (fst (@signup sample_libs production signup_request
                    (set_faults [None; None; Some "profiles is down"] empty_world)))
    = Some 201 /\
  status_of (fst (@signin sample_libs production good_request
                    (set_faults [None; Some "sessions is down"] alice_world)))
    = Some 200 /\
  status_of (fst (logout (as_alice [])
                    (set_faults [Some "sessions is down"] busy_world)))
    = Some 200.
Proof.
  destruct (@secondary_write_failure_swallowed sample_libs) as (A & B & C & _).
  split; [| split].
  - assert (Hl : lookup_fails
                   (fault_at 0 (set_faults [None; None; Some "profiles is down"]
                                  empty_world))
                   "email" (JStr "a@x.com") [])
      by (right; intros r Hr; discriminate Hr).
    pose proof (A production signup_request
                  (set_faults [None; None; Some "profiles is down"] empty_world)
                  "profiles is down" "$2b$10$pw123456" "tok.id-x"
                  eq_refl eq_refl eq_refl Hl eq_refl eq_refl eq_refl eq_refl)
      as (R & _).
    rewrite R. reflexivity.
  - pose proof (B production good_request
                  (set_faults [None; Some "sessions is down"] alice_world)
                  alice "sessions is down" "tok.id-a"
                  (conj eq_refl eq_refl) eq_refl eq_refl eq_refl eq_refl eq_refl)
      as (R & _).
    rewrite R. reflexivity.
  - pose proof (C (as_alice []) (set_faults [Some "sessions is down"] busy_world)
                  alice "sessions is down" eq_refl eq_refl) as (R & _).
    rewrite R. reflexivity.
Defined.

Lemma signup_success_response_witness :
  fst (@signup sample_libs production signup_request empty_world) =
    Ok (mkResponse 201
          (JObj [("message", JStr "Pendaftaran berhasil");
                 ("user", JObj [("id", JStr "id-x"); ("email", JStr "a@x.com");
                                ("name", JStr "A")]);
                 ("token", JStr "tok.id-x")])) /\
  fst (@signup sample_libs production signup_request' empty_world) =
  fst (@signup sample_libs production signup_request empty_world).
Proof.
  exact (@signup_success_response sample_libs production signup_request
           signup_request' empty_world "$2b$10$pw123456" "$2b$10$another-one"
           "tok.id-x" eq_refl eq_refl eq_refl eq_refl eq_refl eq_refl eq_refl
           eq_refl eq_refl eq_refl eq_refl).
Defined.

Lemma auth_rejects_by_cause_witness :
  @gate_decision sample_libs production (json_request []) alice_world =
    Rejected (say 401 "Authentication required") /\
  @gate_decision sample_libs production (bearer "bad") alice_world =
    Rejected (say 401 "Invalid token") /\
  @gate_decision sample_libs production (bearer "tok.id-zz") alice_world =
    Rejected (say 401 "User not found") /\
  fst (@auth sample_libs production (bearer "tok.id-a") alice_world) =
    Ok (Passed (JObj alice)).
Proof.
  split; [| split; [| split]].
  - destruct (@auth_rejects_by_cause sample_libs production (json_request [])
                alice_world) as (_ & _ & H & _).
    apply H. reflexivity.
  - destruct (@auth_rejects_by_cause sample_libs production (bearer "bad")
                alice_world) as (_ & _ & _ & _ & H & _).
    apply (H "Bearer bad" "jwt malformed"); reflexivity.
  - destruct (@auth_rejects_by_cause sample_libs production (bearer "tok.id-zz")
                alice_world) as (_ & _ & _ & _ & _ & H & _).
    apply (H "Bearer tok.id-zz" [("id", JStr "id-zz")]); reflexivity.
  - destruct (@auth_rejects_by_cause sample_libs production (bearer "tok.id-a")
                alice_world) as (H & _).
    rewrite H. reflexivity.
Defined.

Lemma updateProfile_partial_writes_witness :
  trace (snd (updateProfile (as_alice [("phone", JStr "555")]) alice_world)) =
    [EvUpdate Users [("phone", JStr "555")] "id" (JStr "id-a")] /\
  map (fun r => cell r "name")
    (users (snd (updateProfile (as_alice [("phone", JStr "555")]) alice_world))) =
    [JStr "A"] /\
  map (fun r => cell r "phone")
    (users (snd (updateProfile (as_alice [("phone", JStr "555")]) alice_world))) =
    [JStr "555"] /\
  updateProfile (as_alice []) alice_world =
    (Ok (mkResponse 200 (JObj [("message", JStr "Profil berhasil diperbarui")])),
     alice_world).
Proof.
  destruct (updateProfile_partial_writes (as_alice [("phone", JStr "555")])
              alice_world alice eq_refl) as (_ & _ & _ & _ & P & _).
  destruct (P eq_refl eq_refl eq_refl) as (T & R & K & _).
  destruct (R eq_refl) as (_ & U).
  destruct (updateProfile_partial_writes (as_alice []) alice_world alice eq_refl)
    as (_ & _ & _ & _ & _ & N).
  split; [exact T |]. split.
  - rewrite (K "name"); [reflexivity | discriminate].
  - split; [rewrite U; reflexivity |].
    exact (N eq_refl eq_refl eq_refl).
Defined.

Lemma getProfile_without_profile_witness :
  fst (getProfile (as_alice []) alice_world) =
    Ok (mkResponse 200
          (JObj [("user",
                  JObj [("id", JStr "id-a"); ("email", JStr "a@x.com");
                        ("name", JStr "A"); ("phone", JNull);
                        ("created_at", JNum 0); ("avatar", JNull)])])).
Proof.
  assert (Hl : lookup_fails (fault_at 1 alice_world) "user_id" (JStr "id-a")
                 (profiles alice_world))
    by (right; intros r Hr; discriminate Hr).
  exact (proj1 (getProfile_without_profile (as_alice []) alice_world alice alice
                  eq_refl eq_refl eq_refl Hl)).
Defined.

Lemma logout_clears_sessions_keeps_tokens_witness :
  fst (logout (as_alice []) busy_world) =
    Ok (mkResponse 200 (JObj [("message", JStr "Logout berhasil")])) /\
  sessions (snd (logout (as_alice []) busy_world)) = [bob_session] /\
  fst (@auth sample_libs production (bearer "tok.id-a")
         (set_clock 1000 (set_faults [] (snd (logout (as_alice []) busy_world))))) =
    Ok (Passed (JObj alice)).
Proof.
  destruct (@logout_clears_sessions_keeps_tokens sample_libs production
              (as_alice []) busy_world alice eq_refl)
    as (R & _ & S' & _ & _ & G).
  split; [exact R |]. split.
  - destruct (S' eq_refl) as (E & _). rewrite E. reflexivity.
  - rewrite G. reflexivity.
Defined.

Lemma signup_lookup_error_ignored_witness :
  status_of (fst (@signup sample_libs production signup_request
                    (set_faults [Some "fetch failed"] alice_world))) = Some 201 /\
  exists evs,
    trace (snd (@signup sample_libs production signup_request
                  (set_faults [Some "fetch failed"] alice_world))) =
      EvSelect Users None "email" (JStr "a@x.com") ::
      EvHash (JStr "pw123456") ::
      EvInsert Users
        [("id", JStr "id-x"); ("email", JStr "a@x.com");
         ("password", JStr "$2b$10$pw123456"); ("name", JStr "A");
         ("phone", JNull); ("created_at", JNum 0)] :: evs.
Proof.
  destruct (@signup_lookup_error_ignored sample_libs production signup_request
              (set_faults [Some "fetch failed"] alice_world) "fetch failed"
              eq_refl eq_refl eq_refl eq_refl) as (E & _ & _ & I & _).
  split.
  - rewrite E. reflexivity.
  - exact (I "$2b$10$pw123456" eq_refl).
Defined.

(** ** A session from end to end

    Signup, read the profile with the token, log out, read the profile
    again with the same token: 201, 200, 200, 200. *)
Example signup_profile_logout_profile :
  let s1 := @signup sample_libs production signup_request empty_world in
  let s2 := @protected sample_libs getProfile production (bearer "tok.id-x")
              (snd s1) in
  let s3 := @protected sample_libs logout production (bearer "tok.id-x")
              (snd s2) in
  let s4 := @protected sample_libs getProfile production (bearer "tok.id-x")
              (snd s3) in
  map status_of [fst s1; fst s2; fst s3; fst s4] =
    [Some 201; Some 200; Some 200; Some 200].
Proof. reflexivity. Qed.

(** * The remaining paths of the handlers *)

Section Paths.

Context {L : Libs}.

Ltac schedule :=
  repeat rewrite nth_tl;
  repeat match goal with
         | |- context [nth ?n (faults ?w) None] =>
             change (nth n (faults w) None) with (fault_at n w)
         end.

Ltac run :=
  cbv [try_catch bind ret throw lift emit console_error new_date next_fault
       select_single insert_returning insert update delete find_by_id
       uuidv4 hash compare sign verify server_error];
  cbn [faults users profiles sessions trace entropy clock table set_table
       set_faults add_event bump_entropy data error fst snd];
  schedule.

Ltac settle :=
  cbn [fst snd users profiles sessions trace faults entropy clock table
       set_table set_faults add_event bump_entropy];
  repeat rewrite <- app_assoc; repeat split; reflexivity.

(** Case analysis over everything a run branches on, closing each case
    with [fin]. *)
Ltac cases_by fin :=
  repeat (cbv [try_catch bind ret throw lift emit console_error new_date
               next_fault select_single insert_returning insert update delete
               find_by_id uuidv4 hash compare sign verify server_error prop
               faults users profiles sessions trace entropy clock table
               set_table set_faults add_event bump_entropy data error fst snd
               nth tl negb orb andb pick];
          try (solve [fin]);
          match goal with
          | |- context [match ?f with Some _ => _ | None => _ end] =>
              is_var f; destruct f
          | |- context [match ?l with nil => _ | cons _ _ => _ end] =>
              is_var l; destruct l
          | |- context [if ?b then _ else _] => is_var b; destruct b
          | |- context [match ?v with JUndef => _ | _ => _ end] =>
              is_var v; destruct v
          | |- context [match req_user ?r with JUndef => _ | _ => _ end] =>
              destruct (req_user r)
          | |- context [bcrypt_hash ?a ?b ?c] => destruct (bcrypt_hash a b c)
          | |- context [bcrypt_compare ?a ?b] => destruct (bcrypt_compare a b)
          | |- context [jwt_sign ?a ?b ?c ?d] => destruct (jwt_sign a b c d)
          | |- context [jwt_verify ?a ?b ?c] => destruct (jwt_verify a b c)
          | |- context [filter ?f ?l] => destruct (filter f l) as [|? [|? ?]]
          | |- context [truthy ?x] => destruct (truthy x)
          end).

(** ** signup: validation, conflict, failures *)

(** X1. signup answers the missing-field 400 exactly when one of email,
    password and name is falsy (absent, null, empty, 0 or false), and
    then it calls nothing. *)
Theorem signup_validation env req w :
  let email := field (req_body req) "email" in
  let password := field (req_body req) "password" in
  let name := field (req_body req) "name" in
  (truthy email && truthy password && truthy name = false ->
   signup env req w =
     (Ok (say 400 "Email, password, dan nama wajib diisi"), w)) /\
  (fst (signup env req w) = Ok (say 400 "Email, password, dan nama wajib diisi") ->
   truthy email && truthy password && truthy name = false).
Proof.
  intros email password name. split.
  - intros H. unfold signup. fold email password name.
    destruct (truthy email), (truthy password), (truthy name);
      try discriminate H; reflexivity.
  - destruct w. unfold signup, signup_register. fold email password name.
    destruct (truthy email), (truthy password), (truthy name);
      cbn [negb orb andb]; try (intros _; reflexivity).
    cases_by ltac:(intros H; discriminate H).
Qed.

Lemma signup_conflict_run env req w u :
  let email := field (req_body req) "email" in
  let password := field (req_body req) "password" in
  let name := field (req_body req) "name" in
  truthy email = true -> truthy password = true -> truthy name = true ->
  fault_at 0 w = None ->
  filter (matches "email" email) (users w) = [u] ->
  signup env req w = (Ok (say 400 "Email sudah terdaftar"), after_check email w).
Proof.
  intros email password name He Hp Hn H0 Hu. unfold signup, after_check.
  fold email password name. rewrite He, Hp, Hn. cbn [negb orb]. run.
  rewrite H0. run. rewrite Hu. reflexivity.
Qed.

(** X2. When exactly one row has the email and the lookup answers, signup
    answers the conflict 400 after that one call: nothing is hashed,
    inserted or signed, whatever the name and the password. *)
Theorem signup_conflict env req w u :
  let email := field (req_body req) "email" in
  let password := field (req_body req) "password" in
  let name := field (req_body req) "name" in
  let out := signup env req w in
  truthy email = true -> truthy password = true -> truthy name = true ->
  fault_at 0 w = None ->
  filter (matches "email" email) (users w) = [u] ->
  fst out = Ok (say 400 "Email sudah terdaftar") /\
  trace (snd out) = (trace w ++ [EvSelect Users None "email" email])%list /\
  users (snd out) = users w /\
  profiles (snd out) = profiles w /\
  sessions (snd out) = sessions w /\
  entropy (snd out) = entropy w.
Proof.
  intros email password name out He Hp Hn H0 Hu. subst out.
  rewrite (signup_conflict_run env req w u He Hp Hn H0 Hu).
  fold email. unfold after_check. settle.
Qed.

(** X3. When the store refuses the user insert, signup answers 500 with the
    store's message, the tables are as before, and neither the profile
    insert nor the signing is attempted. *)
Theorem signup_insert_refused env req w m h :
  let email := field (req_body req) "email" in
  let password := field (req_body req) "password" in
  let name := field (req_body req) "name" in
  let phone := field (req_body req) "phone" in
  truthy email = true -> truthy password = true -> truthy name = true ->
  lookup_fails (fault_at 0 w) "email" email (users w) ->
  bcrypt_hash (entropy w) password 10 = Ok h ->
  fault_at 1 w = Some m ->
  let out := signup env req w in
  fst out = Ok (say_error 500 "Gagal mendaftarkan pengguna" m) /\
  users (snd out) = users w /\
  profiles (snd out) = profiles w /\
  sessions (snd out) = sessions w /\
  trace (snd out) =
    (trace w ++
     [EvSelect Users None "email" email; EvHash password;
      EvInsert Users (new_user_row (entropy w) (clock w) email name phone h);
      EvLog "Signup error:" m])%list.
Proof.
  intros email password name phone He Hp Hn Hl Hh H1 out. subst out.
  rewrite (signup_check_skipped env req w He Hp Hn Hl).
  fold email password name phone.
  unfold signup_register, after_check, new_user_row. run. rewrite Hh. run.
  rewrite H1. run. settle.
Qed.

(** X4. When the signing throws (an unset secret, say), signup answers 500
    with the text of the exception, and the user row it has inserted
    stays in the table. *)
Theorem signup_sign_failure env req w h e :
  let email := field (req_body req) "email" in
  let password := field (req_body req) "password" in
  let name := field (req_body req) "name" in
  let phone := field (req_body req) "phone" in
  let payload := JObj [("id", JStr (uuid_of (S (entropy w)))); ("email", email)] in
  truthy email = true -> truthy password = true -> truthy name = true ->
  lookup_fails (fault_at 0 w) "email" email (users w) ->
  bcrypt_hash (entropy w) password 10 = Ok h ->
  fault_at 1 w = None ->
  jwt_sign payload (JWT_SECRET env) "7d" (clock w) = Throw e ->
  let out := signup env req w in
  fst out = Ok (say_error 500 "Terjadi kesalahan pada server" e) /\
  users (snd out) =
    (users w ++ [new_user_row (entropy w) (clock w) email name phone h])%list.
Proof.
  intros email password name phone payload He Hp Hn Hl Hh H1 Hs out. subst out.
  rewrite (signup_check_skipped env req w He Hp Hn Hl).
  fold email password name phone.
  unfold signup_register, after_check, new_user_row. run. rewrite Hh. run.
  rewrite H1. run. unfold payload in Hs.
  destruct (fault_at 2 w); run; unfold prop; run;
    cbn [field lookup String.eqb Ascii.eqb Bool.eqb]; rewrite Hs; run; settle.
Qed.

(** X5. The world a successful signup leaves: one user row appended, holding
    the hash and not the password; one profile row appended, linked to
    it by [user_id], with a null avatar; three entries of the failure
    schedule consumed; the clock untouched. *)
Theorem signup_effect env req w h tok :
  let email := field (req_body req) "email" in
  let password := field (req_body req) "password" in
  let name := field (req_body req) "name" in
  let phone := field (req_body req) "phone" in
  let payload := JObj [("id", JStr (uuid_of (S (entropy w)))); ("email", email)] in
  truthy email = true -> truthy password = true -> truthy name = true ->
  lookup_fails (fault_at 0 w) "email" email (users w) ->
  bcrypt_hash (entropy w) password 10 = Ok h ->
  fault_at 1 w = None ->
  fault_at 2 w = None ->
  jwt_sign payload (JWT_SECRET env) "7d" (clock w) = Ok tok ->
  let out := signup env req w in
  status_of (fst out) = Some 201 /\
  users (snd out) =
    (users w ++ [new_user_row (entropy w) (clock w) email name phone h])%list /\
  profiles (snd out) =
    (profiles w ++ [new_profile_row (entropy w) (clock w)])%list /\
  sessions (snd out) = sessions w /\
  faults (snd out) = tl (tl (tl (faults w))) /\
  clock (snd out) = clock w.
Proof.
  intros email password name phone payload He Hp Hn Hl Hh H1 H2 Hs out. subst out.
  rewrite (signup_check_skipped env req w He Hp Hn Hl).
  fold email password name phone.
  unfold signup_register, after_check, new_user_row, new_profile_row. run.
  rewrite Hh. run. rewrite H1. run. rewrite H2. run. unfold prop. run.
  cbn [field lookup String.eqb Ascii.eqb Bool.eqb].
  unfold payload in Hs. rewrite Hs. run. settle.
Qed.

(** ** signup, then signup or signin *)

Lemma signup_leaves env req w h tok :
  let email := field (req_body req) "email" in
  let password := field (req_body req) "password" in
  let name := field (req_body req) "name" in
  let phone := field (req_body req) "phone" in
  let payload := JObj [("id", JStr (uuid_of (S (entropy w)))); ("email", email)] in
  truthy email = true -> truthy password = true -> truthy name = true ->
  lookup_fails (fault_at 0 w) "email" email (users w) ->
  bcrypt_hash (entropy w) password 10 = Ok h ->
  fault_at 1 w = None ->
  jwt_sign payload (JWT_SECRET env) "7d" (clock w) = Ok tok ->
  let out := signup env req w in
  users (snd out) =
    (users w ++ [new_user_row (entropy w) (clock w) email name phone h])%list /\
  faults (snd out) = tl (tl (tl (faults w))) /\
  clock (snd out) = clock w.
Proof.
  intros email password name phone payload He Hp Hn Hl Hh H1 Hs out. subst out.
  rewrite (signup_check_skipped env req w He Hp Hn Hl).
  fold email password name phone.
  unfold signup_register, after_check, new_user_row. run.
  rewrite Hh. run. rewrite H1. run. unfold payload in Hs.
  destruct (fault_at 2 w); run; unfold prop; run;
    cbn [field lookup String.eqb Ascii.eqb Bool.eqb]; rewrite Hs; run; settle.
Qed.

Lemma no_user_lookup_fails req w f :
  no_such_user req w ->
  lookup_fails f "email" (field (req_body req) "email") (users w).
Proof.
  intros Hno. right. intros r Hr. unfold no_such_user in Hno.
  rewrite Hno in Hr. discriminate Hr.
Qed.

(** The row signup has appended is the one row with the email. *)
Lemma new_row_found n now s name phone h rows :
  filter (matches "email" (JStr s)) rows = [] ->
  filter (matches "email" (JStr s))
    (rows ++ [new_user_row n now (JStr s) name phone h]) =
  [new_user_row n now (JStr s) name phone h].
Proof.
  intros Hno. rewrite filter_app, Hno. cbn [app filter].
  unfold matches, cell, new_user_row.
  cbn [lookup String.eqb Ascii.eqb Bool.eqb cell_eqb].
  rewrite String.eqb_refl. reflexivity.
Qed.

(** X6. Signing up twice with the same email: once the first signup has gone
    through, a second one with that email answers the conflict 400,
    whatever its name and password. *)
Theorem signup_twice env req req2 w s h tok :
  let password := field (req_body req) "password" in
  let name := field (req_body req) "name" in
  let payload :=
    JObj [("id", JStr (uuid_of (S (entropy w)))); ("email", JStr s)] in
  field (req_body req) "email" = JStr s -> s <> "" ->
  truthy password = true -> truthy name = true ->
  no_such_user req w ->
  bcrypt_hash (entropy w) password 10 = Ok h ->
  fault_at 1 w = None ->
  jwt_sign payload (JWT_SECRET env) "7d" (clock w) = Ok tok ->
  field (req_body req2) "email" = JStr s ->
  truthy (field (req_body req2) "password") = true ->
  truthy (field (req_body req2) "name") = true ->
  fault_at 3 w = None ->
  status_of (fst (signup env req w)) = Some 201 /\
  fst (signup env req2 (snd (signup env req w))) =
    Ok (say 400 "Email sudah terdaftar").
Proof.
  intros password name payload Hmail Hs Hp Hn Hno Hh H1 Hsign Hmail2 Hp2 Hn2 H3.
  assert (He : truthy (field (req_body req) "email") = true).
  { rewrite Hmail. cbn. destruct (String.eqb_spec s ""); [contradiction | reflexivity]. }
  pose proof (no_user_lookup_fails req w (fault_at 0 w) Hno) as Hl.
  assert (Hsign' : jwt_sign
            (JObj [("id", JStr (uuid_of (S (entropy w))));
                   ("email", field (req_body req) "email")])
            (JWT_SECRET env) "7d" (clock w) = Ok tok)
    by (rewrite Hmail; exact Hsign).
  destruct (signup_created env req w h tok He Hp Hn Hl Hh H1 Hsign') as (R & _).
  destruct (signup_leaves env req w h tok He Hp Hn Hl Hh H1 Hsign')
    as (U & F & _).
  split; [rewrite R; reflexivity |].
  assert (He2 : truthy (field (req_body req2) "email") = true)
    by (rewrite Hmail2, <- Hmail; exact He).
  rewrite (signup_conflict_run env req2 (snd (signup env req w))
             (new_user_row (entropy w) (clock w) (JStr s) name
                (field (req_body req) "phone") h) He2 Hp2 Hn2).
  - reflexivity.
  - unfold fault_at. rewrite F, !nth_tl. exact H3.
  - rewrite Hmail2, U, Hmail. apply new_row_found.
    unfold no_such_user in Hno. rewrite Hmail in Hno. exact Hno.
Qed.

(** X7. Signup, then signin with the same email and password: as long as
    [bcrypt.compare] accepts the password against the hash that
    [bcrypt.hash] made of it, signin answers 200 with the id, email and
    name that signup returned. *)
Theorem signup_then_signin env req req2 w s h tok :
  let password := field (req_body req) "password" in
  let name := field (req_body req) "name" in
  let userId := JStr (uuid_of (S (entropy w))) in
  let payload := JObj [("id", userId); ("email", JStr s)] in
  field (req_body req) "email" = JStr s -> s <> "" ->
  truthy password = true -> truthy name = true ->
  no_such_user req w ->
  bcrypt_hash (entropy w) password 10 = Ok h ->
  fault_at 1 w = None ->
  jwt_sign payload (JWT_SECRET env) "7d" (clock w) = Ok tok ->
  field (req_body req2) "email" = JStr s ->
  field (req_body req2) "password" = password ->
  bcrypt_compare password (JStr h) = Ok true ->
  fault_at 3 w = None ->
  fst (signup env req w) =
    Ok (mkResponse 201
          (JObj [("message", JStr "Pendaftaran berhasil");
                 ("user", JObj [("id", userId); ("email", JStr s); ("name", name)]);
                 ("token", JStr tok)])) /\
  fst (signin env req2 (snd (signup env req w))) =
    Ok (mkResponse 200
          (JObj [("message", JStr "Login berhasil");
                 ("user", JObj [("id", userId); ("email", JStr s); ("name", name)]);
                 ("token", JStr tok)])).
Proof.
  intros password name userId payload Hmail Hs Hp Hn Hno Hh H1 Hsign Hmail2 Hp2
    Hcmp H3.
  assert (He : truthy (field (req_body req) "email") = true).
  { rewrite Hmail. cbn. destruct (String.eqb_spec s ""); [contradiction | reflexivity]. }
  pose proof (no_user_lookup_fails req w (fault_at 0 w) Hno) as Hl.
  assert (Hsign' : jwt_sign
            (JObj [("id", JStr (uuid_of (S (entropy w))));
                   ("email", field (req_body req) "email")])
            (JWT_SECRET env) "7d" (clock w) = Ok tok)
    by (rewrite Hmail; exact Hsign).
  destruct (signup_created env req w h tok He Hp Hn Hl Hh H1 Hsign') as (R & _).
  destruct (signup_leaves env req w h tok He Hp Hn Hl Hh H1 Hsign')
    as (U & F & C).
  split; [rewrite R, Hmail; reflexivity |].
  set (w' := snd (signup env req w)) in *.
  set (row := new_user_row (entropy w) (clock w) (JStr s) name
                (field (req_body req) "phone") h).
  assert (Hrow : filter (matches "email" (field (req_body req2) "email"))
                   (users w') = [row]).
  { rewrite Hmail2, U, Hmail. apply new_row_found.
    unfold no_such_user in Hno. rewrite Hmail in Hno. exact Hno. }
  assert (H0 : fault_at 0 w' = None)
    by (unfold fault_at; rewrite F, !nth_tl; exact H3).
  assert (Hc : credentials_present req2).
  { split; [rewrite Hmail2, <- Hmail; exact He | rewrite Hp2; exact Hp]. }
  destruct (signin_granted env req2 w' row tok Hc Hrow H0) as (R2 & _).
  - rewrite Hp2. exact Hcmp.
  - rewrite C. exact Hsign.
  - exact R2.
Qed.

(** ** signin: the other paths *)

(** X8. A signin whose lookup does not come back with one row (the store
    fails, or several rows share the email) is answered like a wrong
    password, with 401 and not 500; the password is not compared, no token
    is signed and no session is written. *)
Theorem signin_lookup_failure env req w :
  let email := field (req_body req) "email" in
  credentials_present req ->
  lookup_fails (fault_at 0 w) "email" email (users w) ->
  signin env req w = (Ok invalid_credentials, after_check email w).
Proof.
  intros email [He Hp] Hl. unfold signin, after_check. fold email.
  fold email in He. rewrite He, Hp. cbn [negb orb]. run.
  destruct Hl as [Hf | Hr]; destruct (fault_at 0 w) as [m|]; run;
    try reflexivity; try contradiction.
  destruct (filter (matches "email" email) (users w)) as [|r [|r' l]];
    try reflexivity.
  exfalso. apply (Hr r). reflexivity.
Qed.


(** X10. In every run, signin sends a response with one of four codes, leaves
    the user and profile tables alone, and appends a session row only
    when it answers 200. *)
Theorem signin_footprint env req w :
  let out := signin env req w in
  status_among [200; 400; 401; 500] (fst out) /\
  users (snd out) = users w /\
  profiles (snd out) = profiles w /\
  (sessions (snd out) = sessions w \/
   status_of (fst out) = Some 200 /\
   exists row, sessions (snd out) = (sessions w ++ [row])%list).
Proof.
  destruct w. unfold signin, status_among, status_of.
  cases_by ltac:(split;
                 [ eexists; split; [reflexivity | cbn; tauto]
                 | split; [reflexivity |];
                   split; [reflexivity |];
                   first [ left; reflexivity
                         | right; split; [reflexivity | eexists; reflexivity] ] ]).
Qed.

(** ** getProfile: the other paths *)

(** X11. With the user row and the one profile row found, getProfile answers
    200 with the five selected columns and the avatar of the profile, or
    null when that avatar is falsy; the password column is not among
    them. *)
Theorem getProfile_found req w ur u p :
  let userId := field ur "id" in
  req_user req = JObj ur ->
  fault_at 0 w = None ->
  filter (matches "id" userId) (users w) = [u] ->
  fault_at 1 w = None ->
  filter (matches "user_id" userId) (profiles w) = [p] ->
  fst (getProfile req w) =
    Ok (mkResponse 200
          (JObj [("user",
                  JObj [("id", cell u "id"); ("email", cell u "email");
                        ("name", cell u "name"); ("phone", cell u "phone");
                        ("created_at", cell u "created_at");
                        ("avatar", if truthy (cell p "avatar")
                                   then cell p "avatar" else JNull)])])).
Proof.
  intros userId Hu H0 Hrow H1 Hp. unfold getProfile. rewrite Hu. unfold prop.
  run. fold userId. rewrite H0. run. rewrite Hrow. run. rewrite H1. run.
  rewrite Hp. reflexivity.
Qed.

(** X12. When the user lookup does not come back with one row (the store
    fails, the user is gone, or several rows share the id), getProfile
    answers 404 and does not look the profile up. *)
Theorem getProfile_not_found req w ur :
  let userId := field ur "id" in
  req_user req = JObj ur ->
  lookup_fails (fault_at 0 w) "id" userId (users w) ->
  getProfile req w =
    (Ok (say 404 "Pengguna tidak ditemukan"),
     set_faults (tl (faults w))
       (add_event (EvSelect Users (Some profile_columns) "id" userId) w)).
Proof.
  intros userId Hu Hl. unfold getProfile. rewrite Hu. unfold prop. run.
  fold userId.
  destruct Hl as [Hf | Hr]; destruct (fault_at 0 w) as [m|]; run;
    try reflexivity; try contradiction.
  destruct (filter (matches "id" userId) (users w)) as [|r [|r' l]];
    try reflexivity.
  exfalso. apply (Hr r). reflexivity.
Qed.

(** X13. In every run, getProfile sends a response with one of three codes and
    changes no table; a 200 carries a [user] object with the keys id,
    email, name, phone, created_at, avatar and no other. *)
Theorem getProfile_read_only req w :
  let out := getProfile req w in
  status_among [200; 404; 500] (fst out) /\
  users (snd out) = users w /\
  profiles (snd out) = profiles w /\
  sessions (snd out) = sessions w /\
  (forall resp, fst out = Ok resp -> status resp = 200 ->
     exists fields,
       body resp = JObj [("user", JObj fields)] /\
       keys fields = ["id"; "email"; "name"; "phone"; "created_at"; "avatar"]).
Proof.
  destruct w. unfold getProfile, status_among.
  cases_by ltac:(split;
                 [ eexists; split; [reflexivity | cbn; tauto]
                 | split; [reflexivity |];
                   split; [reflexivity |];
                   split; [reflexivity |];
                   intros resp [= <-] Hs;
                   first [ discriminate Hs
                         | eexists; split; reflexivity ] ]).
Qed.

(** ** updateProfile: failures and reach *)

Ltac decide_length :=
  match goal with
  | |- context [?a <? ?b] =>
      let v := eval vm_compute in (a <? b) in change (a <? b) with v
  end.

Lemma user_updates_nonempty name phone :
  (0 <? Z.of_nat (length (user_updates name phone))) = truthy name || truthy phone.
Proof.
  unfold user_updates. destruct (truthy name), (truthy phone); reflexivity.
Qed.

(** The two row updates updateProfile may apply. *)
Lemma updateProfile_tables req w ur :
  let name := field (req_body req) "name" in
  let phone := field (req_body req) "phone" in
  let avatar := field (req_body req) "avatar" in
  let userId := field ur "id" in
  let out := updateProfile req w in
  req_user req = JObj ur ->
  (users (snd out) = users w \/
   users (snd out) =
     map (fun r => if matches "id" userId r
                   then merge (user_updates name phone) r else r) (users w)) /\
  (profiles (snd out) = profiles w \/
   profiles (snd out) =
     map (fun r => if matches "user_id" userId r
                   then set_field "avatar" avatar r else r) (profiles w)) /\
  sessions (snd out) = sessions w.
Proof.
  intros name phone avatar userId out Hu. subst out. unfold updateProfile.
  fold name phone avatar. rewrite Hu. unfold prop. run. fold userId.
  rewrite user_updates_nonempty.
  destruct (truthy name || truthy phone); run.
  - destruct (fault_at 0 w); run.
    + repeat split; left; reflexivity.
    + destruct (truthy avatar); run.
      * destruct (fault_at 1 w); run; cbn [fst snd users profiles sessions];
          (split; [right; reflexivity |]); (split; [| reflexivity]);
          [left | right]; reflexivity.
      * cbn [fst snd users profiles sessions].
        split; [right; reflexivity |]. split; [left |]; reflexivity.
  - destruct (truthy avatar); run.
    + destruct (fault_at 0 w); run; cbn [fst snd users profiles sessions];
        (split; [left; reflexivity |]); (split; [| reflexivity]);
        [left | right]; reflexivity.
    + repeat split; left; reflexivity.
Qed.

Lemma cell_merge_other upd k r :
  ~ In k (map fst upd) -> cell (merge upd r) k = cell r k.
Proof.
  unfold merge. revert r. induction upd as [|[k0 v0] upd IH]; intros r Hk.
  - reflexivity.
  - cbn [fold_left fst snd]. rewrite IH.
    + apply cell_set_field_other. intros ->. apply Hk. left. reflexivity.
    + intros Hin. apply Hk. right. exact Hin.
Qed.

Lemma user_updates_keys name phone k :
  In k (map fst (user_updates name phone)) -> k = "name" \/ k = "phone".
Proof.
  rewrite user_updates_fields.
  destruct (truthy name), (truthy phone); cbn; intuition congruence.
Qed.

Lemma column_kept_by (f : Row -> Row) k (sel : Row -> bool) rows :
  (forall r, cell (f r) k = cell r k) ->
  map (fun r => cell r k) (map (fun r => if sel r then f r else r) rows) =
  map (fun r => cell r k) rows.
Proof.
  intros Hf. rewrite map_map. apply map_ext. intros r.
  destruct (sel r); [apply Hf | reflexivity].
Qed.

(** X14. Whatever the body of the request holds, updateProfile changes no
    column of the user table but name and phone, no column of the profile
    table but avatar, no row of another user, and no session: the id,
    the email and the password hash of every row stay as they are. *)
Theorem updateProfile_reach req w ur :
  let userId := field ur "id" in
  let out := updateProfile req w in
  req_user req = JObj ur ->
  (forall k, k <> "name" -> k <> "phone" ->
     map (fun r => cell r k) (users (snd out)) =
     map (fun r => cell r k) (users w)) /\
  (forall k, k <> "avatar" ->
     map (fun r => cell r k) (profiles (snd out)) =
     map (fun r => cell r k) (profiles w)) /\
  filter (fun r => negb (matches "id" userId r)) (users (snd out)) =
    filter (fun r => negb (matches "id" userId r)) (users w) /\
  filter (fun r => negb (matches "user_id" userId r)) (profiles (snd out)) =
    filter (fun r => negb (matches "user_id" userId r)) (profiles w) /\
  sessions (snd out) = sessions w.
Proof.
  intros userId out Hu. subst out.
  destruct (updateProfile_tables req w ur Hu) as (U & P & S').
  fold userId in U, P.
  set (U0 := user_updates (field (req_body req) "name")
               (field (req_body req) "phone")) in *.
  assert (Kid : forall k r, k <> "name" -> k <> "phone" ->
                            cell (merge U0 r) k = cell r k).
  { intros k r Hn Hp. apply cell_merge_other. intros Hin.
    apply user_updates_keys in Hin. tauto. }
  assert (Frame : forall (col : string) (g : Row -> Row) rows,
             (forall r, cell (g r) col = cell r col) ->
             filter (fun r => negb (matches col userId r))
               (map (fun r => if matches col userId r then g r else r) rows) =
             filter (fun r => negb (matches col userId r)) rows).
  { intros col g rows Hg. induction rows as [|r rows IH]; [reflexivity |].
    cbn [map filter]. destruct (matches col userId r) eqn:E.
    - unfold matches at 1. rewrite Hg. fold (matches col userId r).
      rewrite E. cbn [negb]. exact IH.
    - rewrite E. cbn [negb]. rewrite IH. reflexivity. }
  split; [| split; [| split; [| split]]].
  - intros k Hn Hp. destruct U as [-> | ->]; [reflexivity |].
    apply column_kept_by. intros r. apply Kid; assumption.
  - intros k Ha. destruct P as [-> | ->]; [reflexivity |].
    apply column_kept_by. intros r. apply cell_set_field_other. exact Ha.
  - destruct U as [-> | ->]; [reflexivity |].
    apply Frame. intros r. apply Kid; discriminate.
  - destruct P as [-> | ->]; [reflexivity |].
    apply Frame. intros r. apply cell_set_field_other. discriminate.
  - exact S'.
Qed.

(** X15. When the user update fails, updateProfile answers 500 at once: the
    avatar update is not attempted, even if an avatar was sent, and no
    table changes. *)
Theorem updateProfile_user_update_fails req w ur m :
  let name := field (req_body req) "name" in
  let phone := field (req_body req) "phone" in
  let userId := field ur "id" in
  req_user req = JObj ur ->
  truthy name || truthy phone = true ->
  fault_at 0 w = Some m ->
  updateProfile req w =
    (Ok (say_error 500 "Gagal memperbarui profil" m),
     set_faults (tl (faults w))
       (add_event (EvUpdate Users (user_updates name phone) "id" userId) w)).
Proof.
  intros name phone userId Hu Hf H0. unfold updateProfile.
  fold name phone. rewrite Hu. unfold prop. run. fold userId.
  rewrite user_updates_nonempty, Hf. run. rewrite H0. reflexivity.
Qed.

(** X16. When the user update goes through and the avatar update then fails,
    updateProfile answers 500 and the user update stays applied: the two
    writes are not undone together. *)
Theorem updateProfile_avatar_update_fails req w ur m :
  let name := field (req_body req) "name" in
  let phone := field (req_body req) "phone" in
  let avatar := field (req_body req) "avatar" in
  let userId := field ur "id" in
  let out := updateProfile req w in
  req_user req = JObj ur ->
  truthy name || truthy phone = true ->
  truthy avatar = true ->
  fault_at 0 w = None ->
  fault_at 1 w = Some m ->
  fst out = Ok (say_error 500 "Gagal memperbarui avatar" m) /\
  users (snd out) =
    map (fun r => if matches "id" userId r
                  then merge (user_updates name phone) r else r) (users w) /\
  profiles (snd out) = profiles w.
Proof.
  intros name phone avatar userId out Hu Hf Ha H0 H1. subst out.
  unfold updateProfile. fold name phone avatar. rewrite Hu. unfold prop. run.
  fold userId. rewrite user_updates_nonempty, Hf. run. rewrite H0. run.
  rewrite Ha. run. rewrite H1. run. settle.
Qed.

Lemma map_unmatched (sel : Row -> bool) (g : Row -> Row) rows :
  filter sel rows = [] ->
  map (fun r => if sel r then g r else r) rows = rows.
Proof.
  induction rows as [|r rows IH]; [reflexivity |].
  cbn [filter map]. destruct (sel r); [discriminate |].
  intros H. rewrite (IH H). reflexivity.
Qed.

(** X17. An avatar sent for a user who has no profile row: the update matches
    nothing, the store reports no error, and updateProfile answers 200
    with the profile table as it was. *)
Theorem updateProfile_avatar_without_profile req w ur :
  let avatar := field (req_body req) "avatar" in
  let userId := field ur "id" in
  let out := updateProfile req w in
  req_user req = JObj ur ->
  truthy (field (req_body req) "name") = false ->
  truthy (field (req_body req) "phone") = false ->
  truthy avatar = true ->
  fault_at 0 w = None ->
  filter (matches "user_id" userId) (profiles w) = [] ->
  fst out = Ok (say 200 "Profil berhasil diperbarui") /\
  trace (snd out) =
    (trace w ++ [EvUpdate Profiles [("avatar", avatar)] "user_id" userId])%list /\
  profiles (snd out) = profiles w /\
  users (snd out) = users w.
Proof.
  intros avatar userId out Hu Hn Hp Ha H0 Hnone. subst out.
  unfold updateProfile. fold avatar. rewrite Hu. unfold prop. run.
  fold userId. rewrite user_updates_nonempty, Hn, Hp. cbn [orb]. run.
  rewrite Ha. run. rewrite H0. run.
  cbn [fst snd users profiles trace]. rewrite (map_unmatched _ _ _ Hnone).
  repeat split; reflexivity.
Qed.

(** ** updateProfile, then getProfile *)

Lemma filter_updated (sel : Row -> bool) (g : Row -> Row) rows :
  (forall r, sel (g r) = sel r) ->
  filter sel (map (fun r => if sel r then g r else r) rows) =
  map g (filter sel rows).
Proof.
  intros Hg. induction rows as [|r rows IH]; [reflexivity |].
  cbn [map filter]. destruct (sel r) eqn:E.
  - rewrite Hg, E. cbn [map]. rewrite IH. reflexivity.
  - rewrite E. exact IH.
Qed.

(** What getProfile answers once the user lookup has the row. *)
Lemma getProfile_user_found req w ur u :
  let userId := field ur "id" in
  req_user req = JObj ur ->
  fault_at 0 w = None ->
  filter (matches "id" userId) (users w) = [u] ->
  exists avatar,
    fst (getProfile req w) =
      Ok (mkResponse 200
            (JObj [("user",
                    JObj [("id", cell u "id"); ("email", cell u "email");
                          ("name", cell u "name"); ("phone", cell u "phone");
                          ("created_at", cell u "created_at");
                          ("avatar", avatar)])])).
Proof.
  intros userId Hu H0 Hrow. unfold getProfile. rewrite Hu. unfold prop.
  run. fold userId. rewrite H0. run. rewrite Hrow. run.
  destruct (fault_at 1 w); run; [eexists; reflexivity |].
  destruct (filter (matches "user_id" userId) (profiles w)) as [|p [|p' l]];
    eexists; reflexivity.
Qed.

(** X18. A phone (and, if sent, a name) written by updateProfile is what the
    next getProfile of the same user returns; the id, the email and the
    creation date come back as they were. *)
Theorem updateProfile_then_getProfile req w ur u :
  let name := field (req_body req) "name" in
  let phone := field (req_body req) "phone" in
  let userId := field ur "id" in
  req_user req = JObj ur ->
  truthy phone = true ->
  truthy (field (req_body req) "avatar") = false ->
  filter (matches "id" userId) (users w) = [u] ->
  fault_at 0 w = None ->
  fault_at 1 w = None ->
  fst (updateProfile req w) = Ok (say 200 "Profil berhasil diperbarui") /\
  exists avatar,
    fst (getProfile req (snd (updateProfile req w))) =
      Ok (mkResponse 200
            (JObj [("user",
                    JObj [("id", cell u "id"); ("email", cell u "email");
                          ("name", if truthy name then name else cell u "name");
                          ("phone", phone);
                          ("created_at", cell u "created_at");
                          ("avatar", avatar)])])).
Proof.
  intros name phone userId Hu Hp Ha Hrow H0 H1.
  assert (Hrun : updateProfile req w =
            (Ok (say 200 "Profil berhasil diperbarui"),
             set_table Users
               (map (fun r => if matches "id" userId r
                              then merge (user_updates name phone) r else r)
                  (users w))
               (set_faults (tl (faults w))
                  (add_event
                     (EvUpdate Users (user_updates name phone) "id" userId) w)))).
  { unfold updateProfile. fold name phone. rewrite Hu. unfold prop. run.
    fold userId. rewrite user_updates_nonempty, Hp, orb_true_r. run.
    rewrite H0. run. rewrite Ha. reflexivity. }
  rewrite Hrun. cbn [fst snd]. split; [reflexivity |].
  set (U0 := user_updates name phone).
  assert (Kept : forall k r, k <> "name" -> k <> "phone" ->
                             cell (merge U0 r) k = cell r k).
  { intros k r Hn' Hp'. apply cell_merge_other. intros Hin.
    apply user_updates_keys in Hin. tauto. }
  destruct (getProfile_user_found req
              (set_table Users
                 (map (fun r => if matches "id" userId r then merge U0 r else r)
                    (users w))
                 (set_faults (tl (faults w))
                    (add_event (EvUpdate Users U0 "id" userId) w)))
              ur (merge U0 u) Hu) as [avatar Hget].
  - unfold fault_at. cbn [faults set_table set_faults add_event].
    rewrite nth_tl. exact H1.
  - cbn [users set_table]. rewrite filter_updated.
    + fold userId. rewrite Hrow. reflexivity.
    + intros r. unfold matches. rewrite Kept by discriminate. reflexivity.
  - exists avatar. rewrite Hget.
    rewrite (Kept "id"), (Kept "email"), (Kept "created_at") by discriminate.
    assert (Hphone : cell (merge U0 u) "phone" = phone).
    { unfold U0. rewrite user_updates_fields, Hp.
      destruct (truthy name); cbn [app merge fold_left fst snd];
        apply cell_set_field_same. }
    assert (Hname : cell (merge U0 u) "name" =
                    if truthy name then name else cell u "name").
    { unfold U0. rewrite user_updates_fields, Hp.
      destruct (truthy name); cbn [app merge fold_left fst snd].
      - rewrite cell_set_field_other by discriminate.
        apply cell_set_field_same.
      - apply cell_set_field_other. discriminate. }
    rewrite Hphone, Hname. reflexivity.
Qed.

(** ** Handlers reached without a resolved identity *)

(** X19. With [req.user] undefined or null, getProfile reads [req.user.id]
    inside its [try] and answers 500, while updateProfile and logout read
    it before their [try]: they throw, send no response and call nothing. *)
Theorem handlers_without_identity req w :
  req_user req = JUndef \/ req_user req = JNull ->
  status_of (fst (getProfile req w)) = Some 500 /\
  users (snd (getProfile req w)) = users w /\
  (exists e, updateProfile req w = (Throw e, w)) /\
  (exists e, logout req w = (Throw e, w)).
Proof.
  intros [H | H]; unfold getProfile, updateProfile, logout; rewrite H;
    unfold prop; run; (split; [reflexivity |]); (split; [reflexivity |]);
    split; eexists; reflexivity.
Qed.

(** ** The middleware: token, rejection, passage *)

Lemma split_on_space_after t rest :
  no_space t = true ->
  split_on " "%char (t ++ String " "%char rest) = t :: split_on " "%char rest.
Proof.
  induction t as [|c t IH]; cbn [append split_on no_space].
  - intros _. reflexivity.
  - intros H. apply andb_true_iff in H. destruct H as [Hc Ht].
    apply negb_true_iff in Hc. rewrite Hc, (IH Ht). reflexivity.
Qed.

Lemma bearer_token_before_space t rest :
  no_space t = true ->
  index (split_on " "%char ("Bearer " ++ t ++ String " "%char rest)) 1 = JStr t.
Proof.
  intros H.
  change ("Bearer " ++ t ++ String " "%char rest)%string with
    (String "B" (String "e" (String "a" (String "r" (String "e" (String "r"
       (String " " (t ++ String " "%char rest)))))))).
  cbn [split_on Ascii.eqb Bool.eqb]. rewrite (split_on_space_after t rest H).
  reflexivity.
Qed.

Lemma bearer_prefix x : prefix "Bearer " ("Bearer " ++ x) = true.
Proof. cbn. destruct x; reflexivity. Qed.

Lemma bearer_header_accepted x :
  (("Bearer " ++ x =? "")%string || negb (prefix "Bearer " ("Bearer " ++ x))) =
  false.
Proof. rewrite bearer_prefix. reflexivity. Qed.

(** X20. The token is what stands between the first and the second space of
    the header: whatever follows a second space is ignored, and the
    middleware does with [Bearer t rest] exactly what it does with
    [Bearer t]. *)
Theorem bearer_suffix_ignored env req1 req2 w t rest :
  no_space t = true ->
  authorization req1 = Some ("Bearer " ++ t ++ String " "%char rest) ->
  authorization req2 = Some ("Bearer " ++ t) ->
  auth env req1 w = auth env req2 w.
Proof.
  intros Ht H1 H2. unfold auth. rewrite H1, H2.
  rewrite (bearer_token_before_space t rest Ht), (bearer_token t Ht).
  rewrite (bearer_header_accepted t).
  rewrite (bearer_header_accepted (t ++ String " "%char rest)).
  reflexivity.
Qed.

(** X21. A request the middleware rejects never reaches the handler: the
    response is the 401 and the three tables are as before; without an
    Authorization header nothing at all is called. *)
Theorem protected_rejected handler env req w :
  (forall r, gate_decision env req w = Rejected r ->
     fst (protected handler env req w) = Ok r /\
     users (snd (protected handler env req w)) = users w /\
     profiles (snd (protected handler env req w)) = profiles w /\
     sessions (snd (protected handler env req w)) = sessions w) /\
  (authorization req = None ->
   protected handler env req w = (Ok (say 401 "Authentication required"), w)).
Proof.
  split.
  - intros r Hr. rewrite protected_run, Hr. cbn [fst snd].
    split; [reflexivity |]. apply auth_reads_only.
  - intros H. unfold protected, auth. rewrite H. reflexivity.
Qed.

Lemma auth_passed env req w h claims u rest :
  authorization req = Some h ->
  prefix "Bearer " h = true ->
  jwt_verify (index (split_on " "%char h) 1) (JWT_SECRET env) (clock w) =
    Ok (JObj claims) ->
  fault_at 0 w = None ->
  filter (matches "id" (field claims "id")) (users w) = u :: rest ->
  auth env req w =
    (Ok (Passed (JObj u)),
     set_faults (tl (faults w))
       (add_event (EvFindById (field claims "id"))
          (add_event (EvVerify (index (split_on " "%char h) 1)) w))).
Proof.
  intros Ha Hp Hv H0 Hu. unfold auth. rewrite Ha.
  destruct (String.eqb_spec h "") as [-> | _]; [discriminate Hp |].
  rewrite Hp. cbn [negb orb]. run. rewrite Hv. unfold prop. run.
  rewrite H0. run. rewrite Hu. reflexivity.
Qed.

(** ** From one request to the next *)

(** X22. Signup, then the profile with the token signup returned: as long as
    [jwt.verify] reads from the token the id that [jwt.sign] was given,
    and no older row has that id, the middleware lets the request
    through and getProfile answers 200 with the id, email, name and phone
    of the signup. *)
Theorem signup_then_profile env req req2 w h tok claims :
  let email := field (req_body req) "email" in
  let password := field (req_body req) "password" in
  let name := field (req_body req) "name" in
  let phone := field (req_body req) "phone" in
  let userId := JStr (uuid_of (S (entropy w))) in
  let payload := JObj [("id", userId); ("email", email)] in
  truthy email = true -> truthy password = true -> truthy name = true ->
  lookup_fails (fault_at 0 w) "email" email (users w) ->
  bcrypt_hash (entropy w) password 10 = Ok h ->
  fault_at 1 w = None ->
  jwt_sign payload (JWT_SECRET env) "7d" (clock w) = Ok tok ->
  no_space tok = true ->
  jwt_verify (JStr tok) (JWT_SECRET env) (clock w) = Ok (JObj claims) ->
  field claims "id" = userId ->
  filter (matches "id" userId) (users w) = [] ->
  authorization req2 = Some ("Bearer " ++ tok) ->
  fault_at 3 w = None ->
  fault_at 4 w = None ->
  exists avatar,
    fst (protected getProfile env req2 (snd (signup env req w))) =
      Ok (mkResponse 200
            (JObj [("user",
                    JObj [("id", userId); ("email", email); ("name", name);
                          ("phone", if truthy phone then phone else JNull);
                          ("created_at", JNum (clock w));
                          ("avatar", avatar)])])).
Proof.
  intros email password name phone userId payload He Hp Hn Hl Hh H1 Hs Hsp Hv
    Hid Hfresh Hauth H3 H4.
  destruct (signup_leaves env req w h tok He Hp Hn Hl Hh H1 Hs) as (U & F & C).
  fold email name phone in U.
  set (w' := snd (signup env req w)) in *.
  set (row := new_user_row (entropy w) (clock w) email name phone h) in *.
  assert (Hrow : forall rows, filter (matches "id" userId) rows = [] ->
                   filter (matches "id" userId) (rows ++ [row]) = [row]).
  { intros rows Hr. rewrite filter_app, Hr. cbn [app filter].
    unfold matches, cell, row, new_user_row, userId.
    cbn [lookup String.eqb Ascii.eqb Bool.eqb cell_eqb].
    rewrite String.eqb_refl. reflexivity. }
  assert (Hpass : auth env req2 w' =
            (Ok (Passed (JObj row)),
             set_faults (tl (faults w'))
               (add_event (EvFindById (field claims "id"))
                  (add_event
                     (EvVerify (index (split_on " "%char ("Bearer " ++ tok)) 1))
                     w')))).
  { apply (auth_passed env req2 w' ("Bearer " ++ tok) claims row []).
    - exact Hauth.
    - apply bearer_prefix.
    - rewrite (bearer_token tok Hsp), C. exact Hv.
    - unfold fault_at. rewrite F, !nth_tl. exact H3.
    - rewrite Hid, U. apply Hrow. exact Hfresh. }
  unfold protected, bind. rewrite Hpass.
  destruct (getProfile_user_found (with_user (JObj row) req2)
              (set_faults (tl (faults w'))
                 (add_event (EvFindById (field claims "id"))
                    (add_event
                       (EvVerify (index (split_on " "%char ("Bearer " ++ tok)) 1))
                       w')))
              row row eq_refl) as [avatar Hget].
  - unfold fault_at. cbn [faults set_faults add_event]. rewrite F, !nth_tl.
    exact H4.
  - cbn [users set_faults add_event]. rewrite U.
    change (field row "id") with userId. apply Hrow. exact Hfresh.
  - exists avatar. rewrite Hget. reflexivity.
Qed.

Lemma signin_leaves env req w u tok :
  let email := field (req_body req) "email" in
  let password := field (req_body req) "password" in
  let payload := JObj [("id", field u "id"); ("email", field u "email")] in
  credentials_present req ->
  filter (matches "email" email) (users w) = [u] ->
  fault_at 0 w = None ->
  fault_at 1 w = None ->
  bcrypt_compare password (field u "password") = Ok true ->
  jwt_sign payload (JWT_SECRET env) "7d" (clock w) = Ok tok ->
  let out := signin env req w in
  sessions (snd out) =
    (sessions w ++
     [[("id", JStr (uuid_of (entropy w))); ("user_id", field u "id");
       ("ip_address", js_or (req_ip req) (remote_address req));
       ("user_agent", user_agent req); ("last_activity", JNum (clock w))]])%list /\
  faults (snd out) = tl (tl (faults w)).
Proof.
  intros email password payload [He Hp] Hu H0 H1 Hc Hs out. subst out.
  unfold signin. fold email password. fold email in He. fold password in Hp.
  rewrite He, Hp. cbn [negb orb]. run. rewrite H0. run. rewrite Hu.
  cbn [pick data error truthy negb]. unfold prop. run. rewrite Hc.
  cbn [negb]. run. unfold payload in Hs. rewrite Hs. run. rewrite H1. run.
  settle.
Qed.

(** X23. Signin, then logout: the session row that signin recorded is gone
    after the logout, with every other session of that user; the
    sessions of the others are as they were before the signin. *)
Theorem signin_then_logout env req req2 w u i tok :
  let email := field (req_body req) "email" in
  let password := field (req_body req) "password" in
  let payload := JObj [("id", field u "id"); ("email", field u "email")] in
  credentials_present req ->
  filter (matches "email" email) (users w) = [u] ->
  field u "id" = JStr i ->
  fault_at 0 w = None ->
  fault_at 1 w = None ->
  bcrypt_compare password (field u "password") = Ok true ->
  jwt_sign payload (JWT_SECRET env) "7d" (clock w) = Ok tok ->
  req_user req2 = JObj u ->
  fault_at 2 w = None ->
  let w1 := snd (signin env req w) in
  (exists srow,
     sessions w1 = (sessions w ++ [srow])%list /\
     matches "user_id" (JStr i) srow = true) /\
  fst (logout req2 w1) = Ok (say 200 "Logout berhasil") /\
  sessions (snd (logout req2 w1)) =
    filter (fun r => negb (matches "user_id" (JStr i) r)) (sessions w).
Proof.
  intros email password payload Hc Hu Hid H0 H1 Hcmp Hs Hreq H2 w1. subst w1.
  destruct (signin_leaves env req w u tok Hc Hu H0 H1 Hcmp Hs) as (S' & F).
  set (w1 := snd (signin env req w)) in *.
  assert (Hm : forall a b c d,
             matches "user_id" (JStr i)
               [("id", a); ("user_id", field u "id"); ("ip_address", b);
                ("user_agent", c); ("last_activity", d)] = true).
  { intros a b c d. unfold matches, cell.
    cbn [lookup String.eqb Ascii.eqb Bool.eqb]. rewrite Hid.
    cbn [cell_eqb]. apply String.eqb_refl. }
  split.
  { eexists. split; [exact S' | apply Hm]. }
  destruct (logout_run req2 w1 u Hreq) as (R & _ & _ & D & _).
  split; [exact R |].
  rewrite D. unfold fault_at. rewrite F, !nth_tl.
  change (nth 2 (faults w) None) with (fault_at 2 w). rewrite H2, Hid, S'.
  rewrite filter_app. cbn [filter]. rewrite Hm. cbn [negb].
  apply app_nil_r.
Qed.

(** ** What signup answers and writes, over all runs *)

(** X24. In every run, signup sends a response with one of three codes,
    writes no session, changes no existing row, and appends at most one
    user row and, only after it, at most one profile row. *)
Theorem signup_footprint env req w :
  let out := signup env req w in
  status_among [201; 400; 500] (fst out) /\
  sessions (snd out) = sessions w /\
  (users (snd out) = users w /\ profiles (snd out) = profiles w \/
   exists row,
     users (snd out) = (users w ++ [row])%list /\
     (profiles (snd out) = profiles w \/
      exists prow, profiles (snd out) = (profiles w ++ [prow])%list)).
Proof.
  destruct w. unfold signup, signup_register, status_among.
  cases_by ltac:(split;
                 [ eexists; split; [reflexivity | cbn; tauto]
                 | split; [reflexivity |];
                   first [ left; split; reflexivity
                         | right; eexists; split;
                           [ reflexivity
                           | first [ left; reflexivity
                                   | right; eexists; reflexivity ] ] ] ]).
Qed.

End Paths.

(** ** The remaining paths at concrete inputs *)

Lemma signup_validation_witness :
  @signup sample_libs production signup_request_no_email alice_world =
    (Ok (say 400 "Email, password, dan nama wajib diisi"), alice_world).
Proof.
  exact (proj1 (@signup_validation sample_libs production
                  signup_request_no_email alice_world) eq_refl).
Defined.

Lemma signup_conflict_witness :
  fst (@signup sample_libs production signup_request' alice_world) =
    Ok (say 400 "Email sudah terdaftar") /\
  trace (snd (@signup sample_libs production signup_request' alice_world)) =
    [EvSelect Users None "email" (JStr "a@x.com")].
Proof.
  destruct (@signup_conflict sample_libs production signup_request' alice_world
              alice eq_refl eq_refl eq_refl eq_refl eq_refl) as (R & T & _).
  split; [exact R | exact T].
Defined.

Lemma signup_insert_refused_witness :
  fst (@signup sample_libs production signup_request
         (set_faults [None; Some store_error] empty_world)) =
    Ok (say_error 500 "Gagal mendaftarkan pengguna" store_error) /\
  users (snd (@signup sample_libs production signup_request
                (set_faults [None; Some store_error] empty_world))) = [].
Proof.
  assert (Hl : lookup_fails
                 (fault_at 0 (set_faults [None; Some store_error] empty_world))
                 "email" (JStr "a@x.com") [])
    by (right; intros r Hr; discriminate Hr).
  destruct (@signup_insert_refused sample_libs production signup_request
              (set_faults [None; Some store_error] empty_world) store_error
              "$2b$10$pw123456" eq_refl eq_refl eq_refl Hl eq_refl eq_refl)
    as (R & U & _).
  split; [exact R | exact U].
Defined.

Lemma signup_sign_failure_witness :
  fst (@signup sample_libs no_secret signup_request empty_world) =
    Ok (say_error 500 "Terjadi kesalahan pada server"
          "secretOrPrivateKey must have a value") /\
  map (fun r => cell r "email")
    (users (snd (@signup sample_libs no_secret signup_request empty_world))) =
    [JStr "a@x.com"].
Proof.
  assert (Hl : lookup_fails (fault_at 0 empty_world) "email" (JStr "a@x.com") [])
    by (right; intros r Hr; discriminate Hr).
  destruct (@signup_sign_failure sample_libs no_secret signup_request
              empty_world "$2b$10$pw123456"
              "secretOrPrivateKey must have a value"
              eq_refl eq_refl eq_refl Hl eq_refl eq_refl eq_refl) as (R & U).
  split; [exact R | rewrite U; reflexivity].
Defined.

Lemma signup_effect_witness :
  map (fun r => cell r "password")
    (users (snd (@signup sample_libs production signup_request empty_world))) =
    [JStr "$2b$10$pw123456"] /\
  map (fun r => cell r "user_id")
    (profiles (snd (@signup sample_libs production signup_request empty_world))) =
    [JStr "id-x"].
Proof.
  assert (Hl : lookup_fails (fault_at 0 empty_world) "email" (JStr "a@x.com") [])
    by (right; intros r Hr; discriminate Hr).
  destruct (@signup_effect sample_libs production signup_request empty_world
              "$2b$10$pw123456" "tok.id-x"
              eq_refl eq_refl eq_refl Hl eq_refl eq_refl eq_refl eq_refl)
    as (_ & U & P & _).
  split; [rewrite U | rewrite P]; reflexivity.
Defined.

Lemma signup_twice_witness :
  fst (@signup sample_libs production signup_request'
         (snd (@signup sample_libs production signup_request empty_world))) =
    Ok (say 400 "Email sudah terdaftar").
Proof.
  assert (Hs : "a@x.com" <> "") by discriminate.
  exact (proj2 (@signup_twice sample_libs production signup_request
                  signup_request' empty_world "a@x.com" "$2b$10$pw123456"
                  "tok.id-x" eq_refl Hs eq_refl eq_refl eq_refl eq_refl eq_refl
                  eq_refl eq_refl eq_refl eq_refl eq_refl)).
Defined.

Lemma signup_then_signin_witness :
  status_of
    (fst (@signin sample_libs production good_request
            (snd (@signup sample_libs production signup_request empty_world)))) =
    Some 200.
Proof.
  assert (Hs : "a@x.com" <> "") by discriminate.
  destruct (@signup_then_signin sample_libs production signup_request
              good_request empty_world "a@x.com" "$2b$10$pw123456" "tok.id-x"
              eq_refl Hs eq_refl eq_refl eq_refl eq_refl eq_refl eq_refl
              eq_refl eq_refl eq_refl eq_refl) as (_ & R).
  rewrite R. reflexivity.
Defined.

Lemma signin_lookup_failure_witness :
  fst (@signin sample_libs production good_request
         (set_faults [Some "fetch failed"] alice_world)) =
    Ok (say 401 "Email atau password salah").
Proof.
  assert (Hl : lookup_fails
                 (fault_at 0 (set_faults [Some "fetch failed"] alice_world))
                 "email" (JStr "a@x.com")
                 (users (set_faults [Some "fetch failed"] alice_world)))
    by (left; discriminate).
  rewrite (@signin_lookup_failure sample_libs production good_request
             (set_faults [Some "fetch failed"] alice_world)
             (conj eq_refl eq_refl) Hl).
  reflexivity.
Defined.


Lemma getProfile_found_witness :
  fst (getProfile (as_alice []) two_users_world) =
    Ok (mkResponse 200
          (JObj [("user",
                  JObj [("id", JStr "id-a"); ("email", JStr "a@x.com");
                        ("name", JStr "A"); ("phone", JNull);
                        ("created_at", JNum 0); ("avatar", JStr "a.png")])])).
Proof.
  exact (getProfile_found (as_alice []) two_users_world alice alice alice_profile
           eq_refl eq_refl eq_refl eq_refl eq_refl).
Defined.

Lemma getProfile_not_found_witness :
  fst (getProfile (as_alice []) empty_world) =
    Ok (say 404 "Pengguna tidak ditemukan").
Proof.
  assert (Hl : lookup_fails (fault_at 0 empty_world) "id" (JStr "id-a")
                 (users empty_world))
    by (right; intros r Hr; discriminate Hr).
  rewrite (getProfile_not_found (as_alice []) empty_world alice eq_refl Hl).
  reflexivity.
Defined.

Lemma getProfile_read_only_witness :
  exists fields,
    body (mkResponse 200
            (JObj [("user",
                    JObj [("id", JStr "id-a"); ("email", JStr "a@x.com");
                          ("name", JStr "A"); ("phone", JNull);
                          ("created_at", JNum 0); ("avatar", JStr "a.png")])])) =
      JObj [("user", JObj fields)] /\
    keys fields = ["id"; "email"; "name"; "phone"; "created_at"; "avatar"].
Proof.
  destruct (getProfile_read_only (as_alice []) two_users_world)
    as (_ & _ & _ & _ & K).
  exact (K _ eq_refl eq_refl).
Defined.

Lemma updateProfile_reach_witness :
  map (fun r => cell r "email") (users (snd (updateProfile greedy_update
                                               two_users_world))) =
    [JStr "a@x.com"; JStr "b@x.com"] /\
  map (fun r => cell r "password") (users (snd (updateProfile greedy_update
                                                  two_users_world))) =
    [JStr "$2b$10$pw123456"; JStr "$2b$10$hunter22"] /\
  map (fun r => cell r "id") (users (snd (updateProfile greedy_update
                                            two_users_world))) =
    [JStr "id-a"; JStr "id-b"].
Proof.
  destruct (updateProfile_reach greedy_update two_users_world alice eq_refl)
    as (K & _).
  repeat split; rewrite K; try reflexivity; discriminate.
Defined.

Lemma updateProfile_user_update_fails_witness :
  updateProfile
    (as_alice [("name", JStr "Alice"); ("avatar", JStr "new.png")])
    (set_faults [Some "fetch failed"] two_users_world) =
    (Ok (say_error 500 "Gagal memperbarui profil" "fetch failed"),
     add_event (EvUpdate Users [("name", JStr "Alice")] "id" (JStr "id-a"))
       two_users_world).
Proof.
  rewrite (updateProfile_user_update_fails
             (as_alice [("name", JStr "Alice"); ("avatar", JStr "new.png")])
             (set_faults [Some "fetch failed"] two_users_world) alice
             "fetch failed" eq_refl eq_refl eq_refl).
  reflexivity.
Defined.

Lemma updateProfile_avatar_update_fails_witness :
  fst (updateProfile
         (as_alice [("name", JStr "Alice"); ("avatar", JStr "new.png")])
         (set_faults [None; Some "fetch failed"] two_users_world)) =
    Ok (say_error 500 "Gagal memperbarui avatar" "fetch failed") /\
  map (fun r => cell r "name")
    (users (snd (updateProfile
                   (as_alice [("name", JStr "Alice"); ("avatar", JStr "new.png")])
                   (set_faults [None; Some "fetch failed"] two_users_world)))) =
    [JStr "Alice"; JStr "B"].
Proof.
  destruct (updateProfile_avatar_update_fails
              (as_alice [("name", JStr "Alice"); ("avatar", JStr "new.png")])
              (set_faults [None; Some "fetch failed"] two_users_world) alice
              "fetch failed" eq_refl eq_refl eq_refl eq_refl eq_refl)
    as (R & U & _).
  split; [exact R | rewrite U; reflexivity].
Defined.

Lemma updateProfile_avatar_without_profile_witness :
  fst (updateProfile (as_alice [("avatar", JStr "new.png")]) alice_world) =
    Ok (say 200 "Profil berhasil diperbarui") /\
  profiles (snd (updateProfile (as_alice [("avatar", JStr "new.png")])
                   alice_world)) = [].
Proof.
  destruct (updateProfile_avatar_without_profile
              (as_alice [("avatar", JStr "new.png")]) alice_world alice
              eq_refl eq_refl eq_refl eq_refl eq_refl eq_refl) as (R & _ & P & _).
  split; [exact R | exact P].
Defined.

Lemma updateProfile_then_getProfile_witness :
  exists avatar,
    fst (getProfile (as_alice [("phone", JStr "555")])
           (snd (updateProfile (as_alice [("phone", JStr "555")])
                   two_users_world))) =
      Ok (mkResponse 200
            (JObj [("user",
                    JObj [("id", JStr "id-a"); ("email", JStr "a@x.com");
                          ("name", JStr "A"); ("phone", JStr "555");
                          ("created_at", JNum 0); ("avatar", avatar)])])).
Proof.
  exact (proj2 (updateProfile_then_getProfile
                  (as_alice [("phone", JStr "555")]) two_users_world alice alice
                  eq_refl eq_refl eq_refl eq_refl eq_refl eq_refl)).
Defined.

Lemma handlers_without_identity_witness :
  status_of (fst (getProfile (json_request []) busy_world)) = Some 500 /\
  status_of (fst (logout (json_request []) busy_world)) = None /\
  sessions (snd (logout (json_request []) busy_world)) = sessions busy_world.
Proof.
  destruct (handlers_without_identity (json_request []) busy_world
              (or_introl eq_refl)) as (G & _ & _ & [e Hl]).
  split; [exact G |]. rewrite Hl. split; reflexivity.
Defined.

Lemma bearer_suffix_ignored_witness :
  @auth sample_libs production (with_header "Bearer tok.id-a and more")
    alice_world =
  @auth sample_libs production (bearer "tok.id-a") alice_world.
Proof.
  exact (@bearer_suffix_ignored sample_libs production
           (with_header "Bearer tok.id-a and more") (bearer "tok.id-a")
           alice_world "tok.id-a" "and more" eq_refl eq_refl eq_refl).
Defined.

Lemma protected_rejected_witness :
  @protected sample_libs logout production (with_header "Basic abc") busy_world
    = (Ok (say 401 "Authentication required"),
       snd (@auth sample_libs production (with_header "Basic abc") busy_world))
  /\
  sessions (snd (@protected sample_libs logout production
                   (with_header "Basic abc") busy_world)) =
    [alice_session; bob_session; alice_session'] /\
  @protected sample_libs logout production (json_request []) busy_world =
    (Ok (say 401 "Authentication required"), busy_world).
Proof.
  destruct (@protected_rejected sample_libs logout production
              (with_header "Basic abc") busy_world) as (A & _).
  destruct (A (say 401 "Authentication required") eq_refl) as (R & _ & _ & S').
  destruct (@protected_rejected sample_libs logout production (json_request [])
              busy_world) as (_ & B).
  split; [reflexivity |]. split; [exact S' | exact (B eq_refl)].
Defined.

Lemma signup_then_profile_witness :
  exists avatar,
    fst (@protected sample_libs getProfile production (bearer "tok.id-x")
           (snd (@signup sample_libs production signup_request empty_world))) =
      Ok (mkResponse 200
            (JObj [("user",
                    JObj [("id", JStr "id-x"); ("email", JStr "a@x.com");
                          ("name", JStr "A"); ("phone", JNull);
                          ("created_at", JNum 0); ("avatar", avatar)])])).
Proof.
  assert (Hl : lookup_fails (fault_at 0 empty_world) "email" (JStr "a@x.com") [])
    by (right; intros r Hr; discriminate Hr).
  exact (@signup_then_profile sample_libs production signup_request
           (bearer "tok.id-x") empty_world "$2b$10$pw123456" "tok.id-x"
           [("id", JStr "id-x")]
           eq_refl eq_refl eq_refl Hl eq_refl eq_refl eq_refl eq_refl eq_refl
           eq_refl eq_refl eq_refl eq_refl eq_refl).
Defined.

Lemma signin_then_logout_witness :
  sessions
    (snd (logout (as_alice [])
            (snd (@signin sample_libs production good_request busy_world)))) =
    [bob_session].
Proof.
  destruct (@signin_then_logout sample_libs production good_request
              (as_alice []) busy_world alice "id-a" "tok.id-a"
              (conj eq_refl eq_refl) eq_refl eq_refl eq_refl eq_refl eq_refl
              eq_refl eq_refl eq_refl) as (_ & _ & S').
  rewrite S'. reflexivity.
Defined.
